(** * Hybrid recommendation engine: feedback, evaluation, loading, endpoints

    A shallow embedding of the recommendation utilities of the wellness
    backend ([recommendation_engine/utils/feedback.py], [evaluation.py],
    [preprocessing.py]) and of the Flask blueprint [app/recommendations.py],
    together with the properties the specification states about them.

    Conventions.
    - Interaction strengths, metric values and clock readings are Python
      floats in the source; they are embedded as exact rationals ([Q]), so
      every finite value is represented and arithmetic does not round.
    - A Python call either returns or raises: [result A] is [exn + A], with
      [inl] the raised exception.
    - Objects mutated in place (the interactions DataFrame, the module
      globals of the blueprint, the file system) live in an explicit world
      that is threaded through every call and survives a raised exception. *)

From Stdlib Require Import QArith Qminmax Qabs Lqa Ascii String.
From stdpp Require Import base option list strings.

Open Scope string_scope.
Open Scope list_scope.

(* ===================================================================== *)
(** ** Python results and the world-passing monad                         *)
(* ===================================================================== *)

Module Py.

Inductive exn : Type :=
| KeyError (key : string)
| ValueError (msg : string)
| TypeError (msg : string)
| AttributeError (msg : string)
| OSError (msg : string)
| OverflowError (msg : string)
| RuntimeError (msg : string).

Definition result (A : Type) : Type := (exn + A)%type.

Definition ok {A} (a : A) : result A := inr a.
Definition raise {A} (e : exn) : result A := inl e.

Definition rbind {A B} (r : result A) (k : A -> result B) : result B :=
  match r with
  | inl e => inl e
  | inr a => k a
  end.

Definition is_ok {A} (r : result A) : bool :=
  match r with inr _ => true | inl _ => false end.

(** A computation over a mutable world [W]: the world after the call is
    returned also when the call raises, as in-place mutation is not
    rolled back by an exception. *)
Definition M (W A : Type) : Type := W -> result A * W.

Definition ret {W A} (a : A) : M W A := fun w => (inr a, w).
Definition throw {W A} (e : exn) : M W A := fun w => (inl e, w).
Definition bind {W A B} (m : M W A) (k : A -> M W B) : M W B :=
  fun w => match m w with
           | (inl e, w') => (inl e, w')
           | (inr a, w') => k a w'
           end.
Definition lift {W A} (r : result A) : M W A := fun w => (r, w).
Definition get {W} : M W W := fun w => (inr w, w).
Definition put {W} (w : W) : M W unit := fun _ => (inr tt, w).

(** [try: body finally: cleanup]: the cleanup runs on both exits; an
    exception of the body is re-raised after it, unless the cleanup
    itself raises. *)
Definition try_finally {W A} (body : M W A) (cleanup : M W unit) : M W A :=
  fun w => match body w with
           | (r, w1) =>
               match cleanup w1 with
               | (inl e, w2) => (inl e, w2)
               | (inr _, w2) => (r, w2)
               end
           end.

(** Python's [str(e)] for the exceptions above. *)
Definition str_exn (e : exn) : string :=
  match e with
  | KeyError k => "'" +:+ k +:+ "'"
  | ValueError m | TypeError m | AttributeError m
  | OSError m | OverflowError m | RuntimeError m => m
  end.

End Py.

Notation "'let*' x ':=' m 'in' k" := (Py.bind m (fun x => k))
  (at level 10, x name, m at level 100, k at level 200).
Notation "'run' m 'in' k" := (Py.bind m (fun _ => k))
  (at level 10, m at level 100, k at level 200).
Notation "'let?' x ':=' r 'in' k" := (Py.rbind r (fun x => k))
  (at level 10, x name, r at level 100, k at level 200).

(* ===================================================================== *)
(** ** Rational comparisons as the source writes them                     *)
(* ===================================================================== *)

Definition Qgtb (a b : Q) : bool := negb (Qle_bool a b).
Definition Qltb (a b : Q) : bool := negb (Qle_bool b a).

(* ===================================================================== *)
(** ** The interactions DataFrame                                          *)
(* ===================================================================== *)

Module Frame.
Import Py.

Abbreviation label := string.

(** A DataFrame with one homogeneous block: row labels, column labels
    and the cells in row-major order. *)
Record DataFrame : Type := mkDF {
  index : list label;
  columns : list label;
  values : list (list Q)
}.

(** [Index.get_loc]: position of a label, [KeyError] when absent. *)
Fixpoint get_loc (l : label) (ls : list label) : result nat :=
  match ls with
  | [] => raise (KeyError l)
  | x :: rest =>
      if String.eqb l x then ok 0%nat
      else match get_loc l rest with
           | inl e => inl e
           | inr n => inr (S n)
           end
  end.

Definition contains (l : label) (ls : list label) : bool :=
  is_ok (get_loc l ls).

(** [df.at[u, i]] read. *)
Definition at_ (df : DataFrame) (u i : label) : result Q :=
  let? r := get_loc u (index df) in
  let? c := get_loc i (columns df) in
  match values df !! r with
  | None => raise (KeyError u)
  | Some row =>
      match row !! c with
      | None => raise (KeyError i)
      | Some v => ok v
      end
  end.

(** [df.at[u, i] = v] on labels that exist.  On a label that does not
    exist pandas enlarges the frame with NaN cells, which no rational
    cell can hold; the callers below only assign to labels they have
    looked up or created, so that branch is reported as [KeyError]. *)
Definition set_at (df : DataFrame) (u i : label) (v : Q) : result DataFrame :=
  let? r := get_loc u (index df) in
  let? c := get_loc i (columns df) in
  match values df !! r with
  | None => raise (KeyError u)
  | Some row =>
      if decide (c < length row)%nat
      then ok (mkDF (index df) (columns df)
                    (<[r := <[c := v]> row]> (values df)))
      else raise (KeyError i)
  end.

(** [df.loc[u] = x] for a new row label: a row of [x] is appended. *)
Definition append_row (df : DataFrame) (u : label) (x : Q) : DataFrame :=
  mkDF (index df ++ [u]) (columns df)
       (values df ++ [replicate (length (columns df)) x]).

(** [df[i] = x] for a new column label: a column of [x] is appended. *)
Definition append_column (df : DataFrame) (i : label) (x : Q) : DataFrame :=
  mkDF (index df) (columns df ++ [i])
       (map (fun row => row ++ [x]) (values df)).

(** [df.iterrows()]: the row labels paired with their rows, in order. *)
Definition iterrows (df : DataFrame) : list (label * list Q) :=
  zip (index df) (values df).

(** [list(row[row > 0].index)]: labels of the strictly positive cells. *)
Fixpoint positive_labels (cols : list label) (row : list Q) : list label :=
  match cols, row with
  | c :: cols', v :: row' =>
      if Qgtb v 0 then c :: positive_labels cols' row'
      else positive_labels cols' row'
  | _, _ => []
  end.

(** [df.reindex(columns=target, fill_value=fill)]: the columns become
    [target]; a target label found among the old columns keeps its
    cells, any other is filled; old columns not in [target] are dropped.
    pandas refuses to reindex an axis with duplicate labels. *)
Definition reindex_row (old : list label) (target : list label)
           (fill : Q) (row : list Q) : list Q :=
  map (fun c => match get_loc c old with
                | inr j => default fill (row !! j)
                | inl _ => fill
                end) target.

Definition reindex_columns (df : DataFrame) (target : list label) (fill : Q)
  : result DataFrame :=
  if decide (columns df = target) then ok df
  else if decide (NoDup (columns df))
       then ok (mkDF (index df) target
                     (map (reindex_row (columns df) target fill) (values df)))
       else raise (ValueError "cannot reindex on an axis with duplicate labels").

(** Frames that pandas can hold and address cell by cell: rectangular,
    with unique row and column labels. *)
Definition wf (df : DataFrame) : Prop :=
  NoDup (index df) ∧ NoDup (columns df) ∧
  length (values df) = length (index df) ∧
  Forall (fun row => length row = length (columns df)) (values df).

End Frame.

(* ===================================================================== *)
(** ** Library functions the code calls                                   *)
(* ===================================================================== *)

(** The operating-system and standard-library calls of the source, over
    an abstract file-system state [FS].  Each file operation may raise. *)
Record Platform (FS : Type) : Type := mkPlatform {
  (** [os.makedirs(path, exist_ok=True)] *)
  makedirs : string -> Py.M FS unit;
  (** [with open(path, 'a', encoding='utf-8') as f: f.write(text)] *)
  append_text : string -> string -> Py.M FS unit;
  (** [os.path.join(dir, name)] *)
  path_join : string -> string -> string
}.
Arguments makedirs {FS}.
Arguments append_text {FS}.
Arguments path_join {FS}.

(** The line terminator ["\n"]. *)
Definition newline : string := String (ascii_of_nat 10) EmptyString.

(** Python dict literals and [dict.get(key, default)]. *)
Fixpoint dict_get {V} (d : list (string * V)) (key : string) (dflt : V) : V :=
  match d with
  | [] => dflt
  | (k, v) :: rest => if String.eqb key k then v else dict_get rest key dflt
  end.

(* ===================================================================== *)
(** ** recommendation_engine/utils/feedback.py                            *)
(* ===================================================================== *)

Module Feedback.
Import Py Frame.
Local Open Scope Q_scope.

Record FeedbackManager : Type := mkFeedbackManager {
  log_dir : string;
  log_path : string
}.

(** The dict that [record] serialises with [json.dumps]. *)
Record log_entry : Type := mkEntry {
  entry_user_id : string;
  entry_item_id : string;
  entry_action : string;
  entry_delta : Q
}.

(** [{"like": 1.0, "dislike": -1.0, "skip": 0.1}] *)
Definition action_weights : list (string * Q) :=
  [("like", 1.0); ("dislike", -1.0); ("skip", 0.1)].

Definition default_weight (action : string) : Q :=
  dict_get action_weights action 0.1.

(** The two [if] statements that clip the new value to [-5, 5]. *)
Definition clip (new_val : Q) : Q :=
  let new_val := if Qgtb new_val 5.0 then 5.0 else new_val in
  if Qltb new_val (-5.0) then -5.0 else new_val.

(** [if user_id not in interactions_df.index:
        interactions_df.loc[user_id] = 0.0] *)
Definition ensure_row (df : DataFrame) (user_id : string) : DataFrame :=
  if negb (contains user_id (index df)) then append_row df user_id 0.0 else df.

(** [if item_id not in interactions_df.columns:
        interactions_df[item_id] = 0.0] *)
Definition ensure_column (df : DataFrame) (item_id : string) : DataFrame :=
  if negb (contains item_id (columns df)) then append_column df item_id 0.0 else df.

(** The value the matrix holds for a pair; a pair that has no cell yet
    counts as the 0.0 that [record] creates it with. *)
Definition stored (df : DataFrame) (user_id item_id : string) : Q :=
  match at_ df user_id item_id with
  | inr v => v
  | inl _ => 0.0
  end.

Section Manager.
Context {FS : Type} (os : Platform FS).
(** [json.dumps] on the logged dict. *)
Variable dumps : log_entry -> string.

(** What [record] can mutate: the DataFrame object its caller passed
    (and keeps a reference to) and the file system. *)
Record world : Type := mkWorld {
  interactions_df : DataFrame;
  fs : FS
}.

Definition on_fs {A} (m : M FS A) : M world A :=
  fun w => match m (fs w) with
           | (r, fs') => (r, mkWorld (interactions_df w) fs')
           end.

Definition read_df : M world DataFrame :=
  fun w => (inr (interactions_df w), w).

Definition write_df (df : DataFrame) : M world unit :=
  fun w => (inr tt, mkWorld df (fs w)).

(** [FeedbackManager.__init__] *)
Definition init (log_dir : string) : M FS FeedbackManager :=
  run makedirs os log_dir in
  ret (mkFeedbackManager log_dir
         (path_join os log_dir "reco_feedback.jsonl")).

(** [FeedbackManager.record] *)
Definition record (self : FeedbackManager) (user_id item_id action : string)
           (weight : option Q) : M world DataFrame :=
  let weight := match weight with
                | None => default_weight action
                | Some w => w
                end in
  let* df := read_df in
  run write_df (ensure_row df user_id) in
  let* df := read_df in
  run write_df (ensure_column df item_id) in
  let* df := read_df in
  let* cur := lift (at_ df user_id item_id) in
  let new_val := clip (cur + weight) in
  let* df' := lift (set_at df user_id item_id new_val) in
  run write_df df' in
  run on_fs (append_text os (log_path self)
               (dumps (mkEntry user_id item_id action weight)
                +:+ newline)) in
  read_df.

(** [n] successive calls of [record] with the same arguments, each
    caller going on whether or not the call raised. *)
Fixpoint record_times (n : nat) (self : FeedbackManager)
         (user_id item_id action : string) (w : world) : world :=
  match n with
  | O => w
  | S n' => record_times n' self user_id item_id action
              (snd (record self user_id item_id action None w))
  end.

End Manager.

End Feedback.

(* ===================================================================== *)
(** ** recommendation_engine/utils/evaluation.py                          *)
(* ===================================================================== *)

Module Evaluation.
Import Py Frame.
Local Open Scope Q_scope.

(** [p in s] for a Python set or list of strings. *)
Fixpoint mem (p : string) (s : list string) : bool :=
  match s with
  | [] => false
  | x :: rest => if String.eqb p x then true else mem p rest
  end.

(** [set(actual)]: the distinct elements. *)
Fixpoint to_set (l : list string) : list string :=
  match l with
  | [] => []
  | x :: rest => if mem x rest then to_set rest else x :: to_set rest
  end.

(** [len(x)] *)
Definition len {A} (l : list A) : Z := Z.of_nat (length l).

(** [predicted[:k]] for [k >= 1]. *)
Definition first_k {A} (k : Z) (l : list A) : list A := take (Z.to_nat k) l.

Record pr_scores : Type := mkPR { precision : Q; recall : Q; f1 : Q }.

Definition precision_recall_at_k (actual predicted : list string) (k : Z)
  : pr_scores :=
  let k := Z.max 1 k in
  let pred_k := first_k k predicted in
  let actual_set := to_set actual in
  match actual_set with
  | [] => mkPR 0.0 0.0 0.0
  | _ =>
      let hits := len (List.filter (fun a => mem a pred_k) actual_set) in
      let prec := inject_Z hits / inject_Z k in
      let rec := inject_Z hits / inject_Z (len actual_set) in
      let f1 := if Qgtb (prec + rec) 0
                then 2 * prec * rec / (prec + rec) else 0.0 in
      mkPR prec rec f1
  end.

(** The [for i, p in enumerate(pred_k, start=1)] loop, carrying [hits]
    and [score]. *)
Fixpoint ap_loop (actual_set pred_k : list string) (i hits : Z) (score : Q) : Q :=
  match pred_k with
  | [] => score
  | p :: rest =>
      if mem p actual_set
      then let hits := (hits + 1)%Z in
           ap_loop actual_set rest (i + 1)%Z hits
                   (score + inject_Z hits / inject_Z i)
      else ap_loop actual_set rest (i + 1)%Z hits score
  end.

Definition average_precision_at_k (actual predicted : list string) (k : Z) : Q :=
  let k := Z.max 1 k in
  let pred_k := first_k k predicted in
  let actual_set := to_set actual in
  let score := ap_loop actual_set pred_k 1 0 0.0 in
  let denom := Z.min k (len actual_set) in
  if (denom >? 0)%Z then score / inject_Z denom else 0.0.

(** A recommendation as the recommender returns it: a dict of fields. *)
Definition recommendation := list (string * string).

(** [r["id"]] *)
Fixpoint getitem (r : recommendation) (key : string) : result string :=
  match r with
  | [] => raise (KeyError key)
  | (k, v) :: rest => if String.eqb key k then ok v else getitem rest key
  end.

(** [[r["id"] for r in recs]] *)
Fixpoint ids_of (recs : list recommendation) : result (list string) :=
  match recs with
  | [] => ok []
  | r :: rest =>
      let? i := getitem r "id" in
      let? others := ids_of rest in
      ok (i :: others)
  end.

(** The four lists the loop appends to. *)
Record samples : Type := mkSamples {
  precisions : list Q;
  recalls : list Q;
  f1s : list Q;
  maps : list Q
}.

Record metrics : Type := mkMetrics {
  precision_at_k : Q;
  recall_at_k : Q;
  f1_at_k : Q;
  map_at_k : Q
}.

(** [np.mean] and the local [avg]. *)
Definition mean (x : list Q) : Q :=
  fold_right Qplus 0 x / inject_Z (len x).

Definition avg (x : list Q) : Q :=
  match x with
  | [] => 0.0
  | _ => mean x
  end.

(** [round(x, 6)]: nearest multiple of 1e-6, ties to the even one. *)
Definition round_half_even (q : Q) : Z :=
  let n := Qnum q in
  let d := Zpos (Qden q) in
  let fl := (n / d)%Z in
  match (2 * (n mod d) ?= d)%Z with
  | Lt => fl
  | Gt => (fl + 1)%Z
  | Eq => if Z.even fl then fl else (fl + 1)%Z
  end.

Definition round6 (q : Q) : Q :=
  Qmake (round_half_even (q * 1000000)) 1000000.

(** A [for] loop whose body may raise and mutates the world. *)
Fixpoint for_each {W A B} (body : B -> A -> M W B) (acc : B) (l : list A)
  : M W B :=
  match l with
  | [] => ret acc
  | a :: rest => let* acc' := body acc a in for_each body acc' rest
  end.

Section Holdout.
(** [recommender.recommend(user_id, top_n=k)].  The recommender class
    is not part of these modules; it is any function that may read
    the interactions frame it was loaded with and may raise. *)
Variable recommend : DataFrame -> string -> Z -> result (list recommendation).

(** The [try] block for one user. *)
Definition score_user (user_id test_item : string) (k : Z) (acc : samples)
  : M DataFrame samples :=
  let* df := get in
  let* recs := lift (recommend df user_id k) in
  let* pred := lift (ids_of recs) in
  let m := precision_recall_at_k [test_item] pred k in
  ret (mkSamples (precisions acc ++ [precision m])
                 (recalls acc ++ [recall m])
                 (f1s acc ++ [f1 m])
                 (maps acc ++ [average_precision_at_k [test_item] pred k])).

(** [interactions_df.at[user_id, test_item] = v] *)
Definition assign (user_id test_item : string) (v : Q) : M DataFrame unit :=
  let* df := get in
  let* df' := lift (set_at df user_id test_item v) in
  put df'.

(** The body of the loop over [iterrows()]. *)
Definition holdout_user (k : Z) (acc : samples) (it : string * list Q)
  : M DataFrame samples :=
  let '(user_id, row) := it in
  let* df := get in
  match positive_labels (columns df) row with
  | [] => ret acc
  | test_item :: _ =>
      let* original := lift (at_ df user_id test_item) in
      run assign user_id test_item 0 in
      try_finally (score_user user_id test_item k acc)
                  (assign user_id test_item original)
  end.

Definition evaluate_holdout_at_k (k : Z) : M DataFrame metrics :=
  let* df := get in
  let* acc := for_each (holdout_user k) (mkSamples [] [] [] []) (iterrows df) in
  ret (mkMetrics (round6 (avg (precisions acc)))
                 (round6 (avg (recalls acc)))
                 (round6 (avg (f1s acc)))
                 (round6 (avg (maps acc)))).

End Holdout.

End Evaluation.

(* ===================================================================== *)
(** ** recommendation_engine/utils/preprocessing.py                       *)
(* ===================================================================== *)

Module Preprocessing.
Import Py Frame.

(** A text cell of a CSV column: [None] is a missing value (NaN). *)
Definition cell := option string.

(** [items.csv] as [pd.read_csv] returns it: the number of rows and the
    columns the loader looks at, each absent when the file has no such
    column.  Item ids are read as text. *)
Record RawItems : Type := mkRawItems {
  raw_len : nat;
  raw_item_id : option (list label);
  raw_title : option (list cell);
  raw_category : option (list cell);
  raw_tags : option (list cell)
}.

(** The standardised items frame the loader returns. *)
Record Items : Type := mkItems {
  item_id : list label;
  title : option (list cell);
  category : list cell;
  tags : list (list string)
}.

(** ASCII white space, as [str.strip] removes it. *)
Definition is_space (c : ascii) : bool :=
  let n := nat_of_ascii c in
  ((9 <=? n) && (n <=? 13) || (28 <=? n) && (n <=? 32))%nat.

Fixpoint lstrip (s : string) : string :=
  match s with
  | String c rest => if is_space c then lstrip rest else s
  | EmptyString => EmptyString
  end.

Fixpoint rstrip (s : string) : string :=
  match s with
  | EmptyString => EmptyString
  | String c rest =>
      match rstrip rest with
      | EmptyString => if is_space c then EmptyString else String c EmptyString
      | rest' => String c rest'
      end
  end.

Definition strip (s : string) : string := rstrip (lstrip s).

(** [s.split(sep)] for a one-character separator: at least one piece. *)
Fixpoint split (sep : ascii) (s : string) : list string :=
  match s with
  | EmptyString => [EmptyString]
  | String c rest =>
      if Ascii.eqb c sep then EmptyString :: split sep rest
      else match split sep rest with
           | [] => [String c EmptyString]
           | piece :: pieces => String c piece :: pieces
           end
  end.

Definition nonempty (s : string) : bool :=
  match s with EmptyString => false | _ => true end.

(** [[t.strip() for t in str(s).split(',') if t.strip()]] after
    [fillna("")]. *)
Definition parse_tags (c : cell) : list string :=
  let s := default EmptyString c in
  List.filter nonempty (map strip (split ","%char s)).

Section Loader.
(** [pd.read_csv(path)] on the items file and
    [pd.read_csv(path, index_col=0)] on the interactions file. *)
Variable read_items : string -> result RawItems.
Variable read_interactions : string -> result DataFrame.

Definition load_reco_datasets (base_dir : string)
  : result (Items * DataFrame) :=
  let? items := read_items (base_dir +:+ "/items.csv") in
  let tags := match raw_tags items with
              | Some col => map parse_tags col
              | None => replicate (raw_len items) []
              end in
  let category := match raw_category items with
                  | Some col => col
                  | None => replicate (raw_len items) (Some "Item")
                  end in
  let? interactions := read_interactions (base_dir +:+ "/interactions.csv") in
  match raw_item_id items with
  | Some ids =>
      let? interactions := reindex_columns interactions ids 0 in
      ok (mkItems ids (raw_title items) category tags, interactions)
  | None => raise (ValueError "items.csv must include item_id column")
  end.

End Loader.

End Preprocessing.

(** A string that does not begin with white space, as [lstrip] leaves it. *)
Definition starts_clean (s : string) : Prop :=
  match s with
  | EmptyString => True
  | String c _ => Preprocessing.is_space c = false
  end.

(* ===================================================================== *)
(** ** app/recommendations.py: the feedback and metrics endpoints          *)
(* ===================================================================== *)

Module RecoApi.
Import Py.
Local Open Scope Q_scope.

Local Set Warnings "-register-all".

(** Values of a parsed JSON document, which are also the values the
    endpoints put in their responses. *)
Inductive json : Type :=
| JNull
| JBool (b : bool)
| JNumber (q : Q)
| JString (s : string)
| JArray (items : list json)
| JObject (fields : list (string * json)).

(** Python truth value of a parsed JSON value. *)
Definition truthy (j : json) : bool :=
  match j with
  | JNull => false
  | JBool b => b
  | JNumber q => negb (Qeq_bool q 0)
  | JString s => match s with EmptyString => false | _ => true end
  | JArray l => match l with [] => false | _ => true end
  | JObject f => match f with [] => false | _ => true end
  end.

Fixpoint lookup_key (fields : list (string * json)) (key : string) : option json :=
  match fields with
  | [] => None
  | (k, v) :: rest => if String.eqb key k then Some v else lookup_key rest key
  end.

(** [data.get(key, dflt)]: only a dict has the method. *)
Definition get_method (data : json) (key : string) (dflt : json) : result json :=
  match data with
  | JObject fields => ok (default dflt (lookup_key fields key))
  | _ => raise (AttributeError "object has no attribute 'get'")
  end.

(** [d[key] = v] on a dict that keeps insertion order. *)
Fixpoint dict_set (d : list (string * json)) (key : string) (v : json)
  : list (string * json) :=
  match d with
  | [] => [(key, v)]
  | (k, x) :: rest =>
      if String.eqb key k then (k, v) :: rest else (k, x) :: dict_set rest key v
  end.

(** [{**base, **extra}] *)
Definition dict_merge (base extra : list (string * json)) : list (string * json) :=
  fold_left (fun d kv => dict_set d (fst kv) (snd kv)) extra base.

(** [s.lower()] on ASCII letters. *)
Definition lower_char (c : ascii) : ascii :=
  let n := nat_of_ascii c in
  if ((65 <=? n) && (n <=? 90))%nat then ascii_of_nat (n + 32) else c.

Fixpoint lower (s : string) : string :=
  match s with
  | EmptyString => EmptyString
  | String c rest => String (lower_char c) (lower rest)
  end.

(** [jsonify(body), status] *)
Record response : Type := mkResponse { body : json; status_code : Z }.

Definition error_response (msg : string) (code : Z) : response :=
  mkResponse (JObject [("status", JString "error"); ("error", JString msg)]) code.

(** [jsonify({'status': 'success', 'data': data}), 200] *)
Definition metrics_response (data : list (string * json)) : response :=
  mkResponse (JObject [("status", JString "success"); ("data", JObject data)]) 200.

Section Blueprint.
Context {FS : Type} (os : Platform FS).
(** The engine class and [evaluate_at_k] come from [models.recommendations],
    which is not among these modules: any engine state, any constructor
    and any methods, each free to raise and to touch the file system. *)
Context {Engine : Type}.
Variable RecommendationEngine : string -> M FS Engine.
Variable engine_feedback : json -> json -> Q -> M (Engine * FS) unit.
Variable evaluate_at_k : Z -> string -> M (Engine * FS) (list (string * json)).
(** [float(s)] and [int(s)] on a string; [None] when Python raises
    [ValueError]. *)
Variable float_of_string : string -> option Q.
Variable int_of_string : string -> option Z.
(** [json.dumps] *)
Variable dumps : json -> string.
(** [os.path.dirname(os.path.dirname(__file__))] *)
Variable service_root : string.

Definition DATA_DIR : string :=
  path_join os (path_join os service_root "datasets") "reco".

(** The module globals and the file system. *)
Record world : Type := mkWorld {
  _ENGINE : option Engine;
  _LAST_EVAL : option Q;
  _LAST_EVAL_RESULT : option (list (string * json));
  fs : FS
}.

Definition on_fs {A} (m : M FS A) : M world A :=
  fun w => match m (fs w) with
           | (r, fs') =>
               (r, mkWorld (_ENGINE w) (_LAST_EVAL w) (_LAST_EVAL_RESULT w) fs')
           end.

Definition get_engine : M world Engine :=
  fun w => match _ENGINE w with
           | Some eng => (inr eng, w)
           | None =>
               match RecommendationEngine DATA_DIR (fs w) with
               | (inl e, fs') =>
                   (inl e, mkWorld None (_LAST_EVAL w) (_LAST_EVAL_RESULT w) fs')
               | (inr eng, fs') =>
                   (inr eng,
                    mkWorld (Some eng) (_LAST_EVAL w) (_LAST_EVAL_RESULT w) fs')
               end
           end.

(** A method call on the engine object [_ENGINE] refers to, which the
    method mutates in place. *)
Definition on_engine {A} (eng : Engine) (m : M (Engine * FS) A) : M world A :=
  fun w => match m (eng, fs w) with
           | (r, (eng', fs')) =>
               (r, mkWorld (Some eng') (_LAST_EVAL w) (_LAST_EVAL_RESULT w) fs')
           end.

(** The least magnitude of an integer that [float()] refuses: 2^1024 -
    2^970 is the first integer that rounds to 2^1024, beyond the largest
    float.  Every real literal that the JSON decoder accepts as finite
    lies below it, so a number at or beyond it is an integer literal. *)
Definition float_overflow : Q := inject_Z (2 ^ 1024 - 2 ^ 970).

(** [float(x)] on a parsed JSON value.  A number is a finite float or
    an integer; an integer within the range converts to itself, the
    rounding to the nearest float being left out. *)
Definition py_float (x : json) : result Q :=
  let not_a_number type_name :=
    raise (TypeError ("float() argument must be a string or a real number, not '"
                      +:+ type_name +:+ "'")) in
  match x with
  | JNumber q =>
      if Qle_bool float_overflow (Qabs q)
      then raise (OverflowError "int too large to convert to float")
      else ok q
  | JBool b => ok (if b then 1.0 else 0.0)
  | JString s =>
      match float_of_string s with
      | Some q => ok q
      | None => raise (ValueError ("could not convert string to float: '"
                                   +:+ s +:+ "'"))
      end
  | JNull => not_a_number "NoneType"
  | JArray _ => not_a_number "list"
  | JObject _ => not_a_number "dict"
  end.

(** [data = request.get_json() or {}] *)
Definition request_data (parsed : json) : json :=
  if truthy parsed then parsed else JObject [].

(** [float(data.get('rating', 0))] *)
Definition request_rating (data : json) : result Q :=
  let? raw := get_method data "rating" (JNumber 0) in
  py_float raw.

(** The [try] block of [feedback].  [get_json] is the outcome of
    [request.get_json()] and [ts] of [datetime.utcnow().isoformat()]. *)
Definition feedback_try (get_json : result json) (ts : string) : M world response :=
  let* parsed := lift get_json in
  let data := request_data parsed in
  let* user_id := lift (get_method data "user_id" JNull) in
  let* item_id := lift (get_method data "item_id" JNull) in
  let* rating := lift (request_rating data) in
  if negb (truthy user_id) || negb (truthy item_id)
  then ret (error_response "user_id and item_id are required" 400)
  else if Qle_bool rating 0
  then ret (error_response "rating must be > 0" 400)
  else
    let* eng := get_engine in
    run on_engine eng (engine_feedback user_id item_id rating) in
    run on_fs (makedirs os (path_join os service_root "temp")) in
    let log_path := path_join os (path_join os service_root "temp")
                              "reco_feedback.jsonl" in
    let* context := lift (get_method data "context" JNull) in
    run on_fs (append_text os log_path
                 (dumps (JObject [("ts", JString ts);
                                  ("user_id", user_id);
                                  ("item_id", item_id);
                                  ("rating", JNumber rating);
                                  ("context", context)])
                  +:+ newline)) in
    ret (mkResponse (JObject [("status", JString "success");
                              ("message", JString "feedback recorded")]) 200).

(** [except Exception as e: return jsonify(...), 500] *)
Definition handle (m : M world response) (w : world) : response * world :=
  match m w with
  | (inr resp, w') => (resp, w')
  | (inl e, w') => (error_response (str_exn e) 500, w')
  end.

Definition feedback (get_json : result json) (ts : string)
  : world -> response * world :=
  handle (feedback_try get_json ts).

(** [request.args.get(key)]: the first value of the key. *)
Fixpoint args_get (args : list (string * string)) (key : string) : option string :=
  match args with
  | [] => None
  | (k, v) :: rest => if String.eqb key k then Some v else args_get rest key
  end.

(** [int(request.args.get('k', 5))] *)
Definition arg_k (args : list (string * string)) : result Z :=
  match args_get args "k" with
  | None => ok 5%Z
  | Some s =>
      match int_of_string s with
      | Some k => ok k
      | None => raise (ValueError ("invalid literal for int() with base 10: '"
                                   +:+ s +:+ "'"))
      end
  end.

(** [(request.args.get('strategy') or 'hybrid').lower()] *)
Definition arg_strategy (args : list (string * string)) : string :=
  lower (match args_get args "strategy" with
         | Some (String c s) => String c s
         | _ => "hybrid"
         end).

(** The condition under which [metrics] evaluates again. *)
Definition cache_stale (w : world) (now : Q) : bool :=
  match _LAST_EVAL_RESULT w, _LAST_EVAL w with
  | Some _, Some last => Qgtb (now - last) 60
  | _, _ => true
  end.

(** The dict [{'k': k, 'strategy': strategy, **_LAST_EVAL_RESULT}]. *)
Definition metrics_data (k : Z) (strategy : string)
           (last : list (string * json)) : list (string * json) :=
  dict_merge [("k", JNumber (inject_Z k)); ("strategy", JString strategy)] last.

(** The [try] block of [metrics]; [now] is the reading of [time.time()]. *)
Definition metrics_try (args : list (string * string)) (now : Q)
  : M world response :=
  let* k := lift (arg_k args) in
  let strategy := arg_strategy args in
  run (fun w =>
         if cache_stale w now
         then (let* eng := get_engine in
               let* res := on_engine eng (evaluate_at_k k strategy) in
               fun w' => (inr tt, mkWorld (_ENGINE w') (Some now) (Some res) (fs w')))
                w
         else (inr tt, w)) in
  let* w := get in
  match _LAST_EVAL_RESULT w with
  | Some last => ret (metrics_response (metrics_data k strategy last))
  | None => throw (TypeError "argument after ** must be a mapping")
  end.

Definition metrics (args : list (string * string)) (now : Q)
  : world -> response * world :=
  handle (metrics_try args now).

End Blueprint.

End RecoApi.

(* ===================================================================== *)
(** ** app/recommendations.py: the other endpoints                         *)
(* ===================================================================== *)

Module RecoRoutes.
Import Py RecoApi.
Local Open Scope Q_scope.

(** [jsonify({'error': msg}), code], the error shape of the GET routes. *)
Definition plain_error (msg : string) (code : Z) : response :=
  mkResponse (JObject [("error", JString msg)]) code.

(** [context = data.get('context') or {}] and the like. *)
Definition or_empty_dict (j : json) : json :=
  if truthy j then j else JObject [].

(** [(v or 'hybrid').lower()] on a parsed JSON value: only a string has
    the method. *)
Definition strategy_of (v : json) : result string :=
  if truthy v
  then match v with
       | JString s => ok (lower s)
       | _ => raise (AttributeError "object has no attribute 'lower'")
       end
  else ok "hybrid".

(** The local [_map] of [recommend_querystring]. *)
Definition _map (item : json) : result json :=
  let? id := get_method item "item_id" JNull in
  let? title := get_method item "title" JNull in
  let? type := get_method item "category" (JString "Item") in
  let? tags := get_method item "tags" (JArray []) in
  let? score := get_method item "score" (JNumber 0.0) in
  ok (JObject [("id", id); ("title", title); ("type", type);
               ("tags", tags); ("score", score)]).

(** [[_map(it) for it in items]] *)
Fixpoint map_items (items : list json) : result (list json) :=
  match items with
  | [] => ok []
  | it :: rest =>
      let? mapped := _map it in
      let? others := map_items rest in
      ok (mapped :: others)
  end.

Section Routes.
Context {FS : Type} (os : Platform FS).
Context {Engine : Type}.
Variable RecommendationEngine : string -> M FS Engine.
(** [eng.info()] and [eng.recommend(user_id, top_n=, strategy=, alpha=,
    context=)], methods of the engine class that is not among these
    modules. *)
Variable engine_info : M (Engine * FS) json.
Variable engine_recommend :
  json -> Z -> string -> Q -> json -> M (Engine * FS) (list json).
Variable float_of_string : string -> option Q.
Variable int_of_string : string -> option Z.
Variable service_root : string.

Local Abbreviation world := (@RecoApi.world FS Engine).
Local Abbreviation get_engine := (get_engine os RecommendationEngine service_root).

(** [int(x)] on a parsed JSON value; a float is cut towards zero. *)
Definition py_int (x : json) : result Z :=
  let not_a_number type_name :=
    raise (TypeError ("int() argument must be a string, a bytes-like object "
                      +:+ "or a real number, not '" +:+ type_name +:+ "'")) in
  match x with
  | JNumber q => ok (Z.quot (Qnum q) (Zpos (Qden q)))
  | JBool b => ok (if b then 1 else 0)%Z
  | JString s =>
      match int_of_string s with
      | Some n => ok n
      | None => raise (ValueError ("invalid literal for int() with base 10: '"
                                   +:+ s +:+ "'"))
      end
  | JNull => not_a_number "NoneType"
  | JArray _ => not_a_number "list"
  | JObject _ => not_a_number "dict"
  end.

(** The [try] block of [model_info]. *)
Definition model_info_try : M world response :=
  let* eng := get_engine in
  let* info := on_engine eng engine_info in
  ret (mkResponse (JObject [("status", JString "success"); ("data", info)]) 200).

Definition model_info : world -> response * world := handle model_info_try.

(** The [try] block of [reco_health]. *)
Definition reco_health_try : M world response :=
  let* eng := get_engine in
  let* info := on_engine eng engine_info in
  ret (mkResponse (JObject [("status", JString "success"); ("engine", info)]) 200).

Definition reco_health : world -> response * world := handle reco_health_try.

(** The [try] block of the POST [recommend]. *)
Definition recommend_try (get_json : result json) : M world response :=
  let* parsed := lift get_json in
  let data := request_data parsed in
  let* user_id := lift (get_method data "user_id" JNull) in
  if negb (truthy user_id)
  then ret (error_response "user_id is required" 400)
  else
    let* raw_top_n := lift (get_method data "top_n" (JNumber 5)) in
    let* top_n := lift (py_int raw_top_n) in
    let* raw_strategy := lift (get_method data "strategy" JNull) in
    let* strategy := lift (strategy_of raw_strategy) in
    let* raw_alpha := lift (get_method data "alpha" (JNumber 0.5)) in
    let* alpha := lift (py_float float_of_string raw_alpha) in
    let* raw_context := lift (get_method data "context" JNull) in
    let context := or_empty_dict raw_context in
    let* eng := get_engine in
    let* items := on_engine eng
                    (engine_recommend user_id top_n strategy alpha context) in
    ret (mkResponse
           (JObject [("status", JString "success");
                     ("data", JObject [("user_id", user_id);
                                       ("items", JArray items);
                                       ("strategy", JString strategy)])])
           200).

(** [except KeyError as e: ... 404] then [except Exception as e: ... 500],
    with the error shape of the route. *)
Definition handle_not_found (shape : string -> Z -> response)
           (m : M world response) (w : world) : response * world :=
  match m w with
  | (inr resp, w') => (resp, w')
  | (inl (KeyError k), w') =>
      (shape ("User not found: " +:+ str_exn (KeyError k)) 404%Z, w')
  | (inl e, w') => (shape (str_exn e) 500%Z, w')
  end.

Definition recommend (get_json : result json) : world -> response * world :=
  handle_not_found error_response (recommend_try get_json).

(** [int(request.args.get(key, dflt))] *)
Definition arg_int (args : list (string * string)) (key : string) (dflt : Z)
  : result Z :=
  match args_get args key with
  | None => ok dflt
  | Some s =>
      match int_of_string s with
      | Some n => ok n
      | None => raise (ValueError ("invalid literal for int() with base 10: '"
                                   +:+ s +:+ "'"))
      end
  end.

(** [float(request.args.get(key, dflt))] *)
Definition arg_float (args : list (string * string)) (key : string) (dflt : Q)
  : result Q :=
  match args_get args key with
  | None => ok dflt
  | Some s =>
      match float_of_string s with
      | Some q => ok q
      | None => raise (ValueError ("could not convert string to float: '"
                                   +:+ s +:+ "'"))
      end
  end.

(** [context = {}; if request.args.get('mood'): context['mood'] = ...] *)
Definition mood_context (args : list (string * string)) : json :=
  match args_get args "mood" with
  | Some (String c s) => JObject [("mood", JString (String c s))]
  | _ => JObject []
  end.

(** The [try] block of [recommend_querystring]. *)
Definition recommend_querystring_try (args : list (string * string))
  : M world response :=
  match args_get args "user_id" with
  | Some (String c s) =>
      let user_id := String c s in
      let* top_n := lift (arg_int args "top_n" 5) in
      let* alpha := lift (arg_float args "alpha" 0.5) in
      let strategy := arg_strategy args in
      let context := mood_context args in
      let* eng := get_engine in
      let* items := on_engine eng
                      (engine_recommend (JString user_id) top_n strategy alpha
                                        context) in
      let* mapped := lift (map_items items) in
      ret (mkResponse (JObject [("user_id", JString user_id);
                                ("recommendations", JArray mapped)]) 200)
  | _ => ret (plain_error "user_id is required" 400)
  end.

Definition recommend_querystring (args : list (string * string))
  : world -> response * world :=
  handle_not_found plain_error (recommend_querystring_try args).

Definition recommend_get_alias (args : list (string * string))
  : world -> response * world :=
  recommend_querystring args.

End Routes.

End RecoRoutes.

(* ===================================================================== *)
(** ** recommendation_engine/main.py                                       *)
(* ===================================================================== *)

Module MainApp.
Import Py Frame.
Local Open Scope Q_scope.

(** Python's [min(a, b)] and [max(a, b)] on two numbers: the first
    argument unless the second is strictly smaller (larger). *)
Definition py_min (a b : Q) : Q := if Qltb b a then b else a.
Definition py_max (a b : Q) : Q := if Qgtb b a then b else a.

(** [float(max(0.0, min(1.0, alpha)))] *)
Definition clamp_alpha (alpha : Q) : Q := py_max 0.0 (py_min 1.0 alpha).

(** [JSONResponse(content, status_code)] *)
Definition JSONResponse := RecoApi.response.

Section App.
Context {FS : Type} (os : Platform FS).
Variable dumps : Feedback.log_entry -> string.
(** [HybridRecommender] (models/hybrid.py) is not among these modules:
    any model state, with its constructor, the assignment to its [alpha]
    attribute and its methods, each method free to raise. *)
Context {Model : Type}.
Variable HybridRecommender : Q -> Model.
Variable set_alpha : Q -> Model -> Model.
Variable load_data : Preprocessing.Items -> DataFrame -> M Model unit.
Variable train : M Model unit.
Variable model_recommend : string -> Z -> M Model (list RecoApi.json).
(** The two [pd.read_csv] calls of the loader. *)
Variable read_items : string -> result Preprocessing.RawItems.
Variable read_interactions : string -> result DataFrame.

(** The dict [build_model] returns, together with the file system: all
    that the routes of [create_app] can reach. *)
Record bundle : Type := mkBundle {
  model : Model;
  items_df : Preprocessing.Items;
  interactions_df : DataFrame;
  fs : FS
}.

Definition build_model (data_dir : string) (alpha : Q) (files : FS)
  : result bundle :=
  let? loaded := Preprocessing.load_reco_datasets read_items read_interactions
                   data_dir in
  let model := HybridRecommender alpha in
  match (run load_data (fst loaded) (snd loaded) in train) model with
  | (inl e, _) => raise e
  | (inr _, model') => ok (mkBundle model' (fst loaded) (snd loaded) files)
  end.

(** A call on [bundle["model"]]. *)
Definition on_model {A} (m : M Model A) : M bundle A :=
  fun b => match m (model b) with
           | (r, model') =>
               (r, mkBundle model' (items_df b) (interactions_df b) (fs b))
           end.

(** A call of [fb.record(bundle["interactions_df"], ...)]: the frame it
    mutates is the frame of the bundle. *)
Definition on_frame {A} (m : M (Feedback.world (FS := FS)) A) : M bundle A :=
  fun b => match m (Feedback.mkWorld (interactions_df b) (fs b)) with
           | (r, w') =>
               (r, mkBundle (model b) (items_df b)
                            (Feedback.interactions_df w') (Feedback.fs w'))
           end.

(** [except Exception as e: return JSONResponse(shape(str(e)), status_code=400)] *)
Definition answer_400 (shape : string -> RecoApi.json)
           (m : M bundle JSONResponse) (b : bundle) : JSONResponse * bundle :=
  match m b with
  | (inr resp, b') => (resp, b')
  | (inl e, b') => (RecoApi.mkResponse (shape (str_exn e)) 400, b')
  end.

(** One entry of the ["recommendations"] list of the [/recommend] route. *)
Definition shape_recommendation (r : RecoApi.json) : result RecoApi.json :=
  let? id := RecoApi.get_method r "id" RecoApi.JNull in
  let? title := RecoApi.get_method r "title" RecoApi.JNull in
  let? type := RecoApi.get_method r "type" RecoApi.JNull in
  let? score := RecoApi.get_method r "score" (RecoApi.JNumber 0.0) in
  ok (RecoApi.JObject [("id", id); ("title", title); ("type", type);
                       ("score", score)]).

Fixpoint shape_recommendations (recs : list RecoApi.json)
  : result (list RecoApi.json) :=
  match recs with
  | [] => ok []
  | r :: rest =>
      let? shaped := shape_recommendation r in
      let? others := shape_recommendations rest in
      ok (shaped :: others)
  end.

(** The [/recommend] route of [create_app]. *)
Definition recommend (user_id : string) (top_n : Z) (alpha : Q)
  : bundle -> JSONResponse * bundle :=
  answer_400 (fun msg => RecoApi.JObject [("error", RecoApi.JString msg)])
    (run (fun b => (inr tt,
                    mkBundle (set_alpha (clamp_alpha alpha) (model b))
                             (items_df b) (interactions_df b) (fs b))) in
     let* recs := on_model (model_recommend user_id top_n) in
     let* shaped := lift (shape_recommendations recs) in
     ret (RecoApi.mkResponse
            (RecoApi.JObject [("user_id", RecoApi.JString user_id);
                              ("recommendations", RecoApi.JArray shaped)])
            200)).

(** The [/feedback] route of [create_app]; [fb] is the manager the
    application was created with. *)
Definition feedback (fb : Feedback.FeedbackManager)
           (user_id item_id action : string)
  : bundle -> JSONResponse * bundle :=
  answer_400 (fun msg => RecoApi.JObject [("status", RecoApi.JString "error");
                                          ("error", RecoApi.JString msg)])
    (run on_frame (Feedback.record os dumps fb user_id item_id action None) in
     let* b := get in
     run on_model (load_data (items_df b) (interactions_df b)) in
     run on_model train in
     ret (RecoApi.mkResponse
            (RecoApi.JObject [("status", RecoApi.JString "success")]) 200)).

End App.

End MainApp.

(* ===================================================================== *)
(** ** Concrete data for the worked examples                               *)
(* ===================================================================== *)

Module Fixtures.
Import Py Frame.

(** An in-memory file system: the text appended to each path, the most
    recent first. *)
Definition mem_fs : Type := list (string * string).

Definition mem_os : Platform mem_fs :=
  {| makedirs := fun _ fs => (inr tt, fs);
     append_text := fun path text fs => (inr tt, (path, text) :: fs);
     path_join := fun dir name => dir +:+ "/" +:+ name |}.

(** The same file system on a full volume: every append raises. *)
Definition full_os : Platform mem_fs :=
  {| makedirs := fun _ fs => (inr tt, fs);
     append_text := fun _ _ fs => (inl (OSError "No space left on device"), fs);
     path_join := fun dir name => dir +:+ "/" +:+ name |}.

(** A rendering of the logged dict (ids and action only). *)
Definition show_entry (e : Feedback.log_entry) : string :=
  Feedback.entry_user_id e +:+ "," +:+ Feedback.entry_item_id e
  +:+ "," +:+ Feedback.entry_action e.

Definition manager : Feedback.FeedbackManager :=
  Feedback.mkFeedbackManager "temp" "temp/reco_feedback.jsonl".

(** Two users and two items: u1 interacted with A, u2 with B. *)
Definition two_users : DataFrame :=
  mkDF ["u1"; "u2"] ["A"; "B"] [[1%Q; 0%Q]; [0%Q; 2%Q]].

Definition fresh_world : Feedback.world (FS := mem_fs) :=
  Feedback.mkWorld two_users [].

(** A recommender that ranks B before A for everybody. *)
Definition steady_recommend (df : DataFrame) (user_id : string) (k : Z)
  : result (list Evaluation.recommendation) :=
  ok [[("id", "B"); ("title", "Breathing")]; [("id", "A"); ("title", "Walk")]].

(** The same recommender, failing for user u1 only. *)
Definition flaky_recommend (df : DataFrame) (user_id : string) (k : Z)
  : result (list Evaluation.recommendation) :=
  if String.eqb user_id "u1" then raise (RuntimeError "model unavailable")
  else steady_recommend df user_id k.

(** Three users; u1 and u3 interacted with A, u2 with B. *)
Definition three_users : DataFrame :=
  mkDF ["u1"; "u2"; "u3"] ["A"; "B"] [[1%Q; 0%Q]; [0%Q; 2%Q]; [3%Q; 0%Q]].

(** A recommender that fails for user u2 only. *)
Definition moody_recommend (df : DataFrame) (user_id : string) (k : Z)
  : result (list Evaluation.recommendation) :=
  if String.eqb user_id "u2" then raise (RuntimeError "model unavailable")
  else steady_recommend df user_id k.

(** The same recommender, which for user u3 would fail in another way. *)
Definition moody_recommend_without_u3 (df : DataFrame) (user_id : string) (k : Z)
  : result (list Evaluation.recommendation) :=
  if String.eqb user_id "u3" then raise (KeyError "u3")
  else moody_recommend df user_id k.

(** An items file with ids A and C, and an interactions file with the
    columns A and B. *)
Definition raw_catalog : Preprocessing.RawItems :=
  Preprocessing.mkRawItems 2 (Some ["A"; "C"])
    (Some [Some "Walk"; Some "Calm music"])
    None
    (Some [Some "outdoor, calm"; None]).

Definition read_catalog (path : string) : result Preprocessing.RawItems :=
  ok raw_catalog.

Definition read_two_users (path : string) : result DataFrame :=
  ok two_users.

(** [int(s)] on a string of decimal digits. *)
Fixpoint digits_value (s : string) (acc : Z) : option Z :=
  match s with
  | EmptyString => Some acc
  | String c rest =>
      let n := nat_of_ascii c in
      if ((48 <=? n) && (n <=? 57))%nat
      then digits_value rest (10 * acc + Z.of_nat (n - 48))%Z
      else None
  end.

Definition int_of_digits (s : string) : option Z :=
  match s with
  | EmptyString => None
  | _ => digits_value s 0%Z
  end.

Definition float_of_digits (s : string) : option Q :=
  option_map inject_Z (int_of_digits s).

(** An engine that remembers the feedback it was given and whose
    evaluation reports the [k] and the strategy it was run with. *)
Definition toy_engine : Type := list (RecoApi.json * RecoApi.json * Q).

Definition new_toy_engine (data_dir : string) : M mem_fs toy_engine :=
  fun fs => (inr [], fs).

Definition toy_feedback (user_id item_id : RecoApi.json) (rating : Q)
  : M (toy_engine * mem_fs) unit :=
  fun st => (inr tt, ((user_id, item_id, rating) :: fst st, snd st)).

Definition toy_evaluate (k : Z) (strategy : string)
  : M (toy_engine * mem_fs) (list (string * RecoApi.json)) :=
  fun st => (inr [("evaluated_k", RecoApi.JNumber (inject_Z k));
                  ("evaluated_strategy", RecoApi.JString strategy)], st).

Definition show_json (j : RecoApi.json) : string := "{}".

Definition idle_api : RecoApi.world (FS := mem_fs) (Engine := toy_engine) :=
  RecoApi.mkWorld None None None [].

Definition toy_feedback_endpoint :=
  RecoApi.feedback mem_os new_toy_engine toy_feedback float_of_digits
                   show_json "/srv".

Definition toy_metrics_endpoint :=
  RecoApi.metrics mem_os new_toy_engine toy_evaluate int_of_digits "/srv".

(** A request body without a user id and with a null rating. *)
Definition body_without_user : RecoApi.json :=
  RecoApi.JObject [("item_id", RecoApi.JString "A"); ("rating", RecoApi.JNull)].

(** A complete request body with a negative rating. *)
Definition body_negative_rating : RecoApi.json :=
  RecoApi.JObject [("user_id", RecoApi.JString "u1");
                   ("item_id", RecoApi.JString "A");
                   ("rating", RecoApi.JNumber (-1))].

(** A complete feedback request whose rating is the integer -10^400. *)
Definition body_huge_negative_rating : RecoApi.json :=
  RecoApi.JObject [("user_id", RecoApi.JString "u1");
                   ("item_id", RecoApi.JString "A");
                   ("rating", RecoApi.JNumber (inject_Z (- 10 ^ 400)))].

End Fixtures.

(** Further data, for the examples about the rest of the code. *)

Module MoreFixtures.
Import Py Frame Fixtures.

(** One user who liked nothing. *)
Definition idle_user : DataFrame :=
  mkDF ["u1"] ["A"; "B"] [[0%Q; (-1)%Q]].

(** An items file without the [item_id] column. *)
Definition raw_without_ids : Preprocessing.RawItems :=
  Preprocessing.mkRawItems 1 None (Some [Some "Walk"]) None None.

Definition read_without_ids (path : string) : result Preprocessing.RawItems :=
  ok raw_without_ids.

(** The blueprint with an engine already built. *)
Definition warm_api : RecoApi.world (FS := mem_fs) (Engine := toy_engine) :=
  RecoApi.mkWorld (Some []) None None [].

(** A constructor that fails on a missing key of its data. *)
Definition broken_engine (data_dir : string) : M mem_fs toy_engine :=
  fun fs => (inl (KeyError "item_id"), fs).

Definition toy_recommend (user_id : RecoApi.json) (top_n : Z) (strategy : string)
           (alpha : Q) (context : RecoApi.json)
  : M (toy_engine * mem_fs) (list RecoApi.json) :=
  fun st => (inr [RecoApi.JObject [("item_id", RecoApi.JString "A");
                                   ("title", RecoApi.JString "Walk");
                                   ("score", RecoApi.JNumber 1)];
                  RecoApi.JObject [("item_id", RecoApi.JString "B")]], st).

(** A complete feedback request. *)
Definition body_five_stars : RecoApi.json :=
  RecoApi.JObject [("user_id", RecoApi.JString "u1");
                   ("item_id", RecoApi.JString "A");
                   ("rating", RecoApi.JNumber 5)].

(** A recommend request without a user id and with an unreadable top_n. *)
Definition body_anonymous : RecoApi.json :=
  RecoApi.JObject [("top_n", RecoApi.JString "many")].

(** A model that remembers its alpha, the frame it was loaded with and
    how often it was trained. *)
Record toy_model : Type := mkToyModel {
  toy_alpha : Q;
  toy_frame : option DataFrame;
  toy_trained : nat
}.

Definition toy_set_alpha (alpha : Q) (m : toy_model) : toy_model :=
  mkToyModel alpha (toy_frame m) (toy_trained m).

Definition toy_load_data (items : Preprocessing.Items) (df : DataFrame)
  : M toy_model unit :=
  fun m => (inr tt, mkToyModel (toy_alpha m) (Some df) (toy_trained m)).

Definition toy_train : M toy_model unit :=
  fun m => (inr tt, mkToyModel (toy_alpha m) (toy_frame m) (S (toy_trained m))).

Definition toy_model_recommend (user_id : string) (top_n : Z)
  : M toy_model (list RecoApi.json) :=
  fun m => (inl (RuntimeError "model is not trained"), m).

Definition toy_catalog : Preprocessing.Items :=
  Preprocessing.mkItems ["A"; "B"] None [Some "Item"; Some "Item"] [[]; []].

Definition toy_bundle : MainApp.bundle (FS := mem_fs) (Model := toy_model) :=
  MainApp.mkBundle (mkToyModel (1 # 2) None 0) toy_catalog two_users [].

End MoreFixtures.

(* ===================================================================== *)
(** * Properties                                                           *)
(* ===================================================================== *)

(** ** Facts about frames                                                  *)

Module FrameFacts.
Import Py Frame.

Lemma get_loc_lookup l ls n :
  get_loc l ls = inr n → ls !! n = Some l.
Proof.
  revert n. induction ls as [|x rest IH]; intros n; simpl; [discriminate|].
  destruct (String.eqb_spec l x) as [->|Hne].
  - intros [= <-]. reflexivity.
  - destruct (get_loc l rest) as [e|m]; [discriminate|].
    intros [= <-]. simpl. apply IH. reflexivity.
Qed.

Lemma get_loc_lt l ls n : get_loc l ls = inr n → (n < length ls)%nat.
Proof. intros H. apply get_loc_lookup in H. eapply lookup_lt_Some, H. Qed.

Lemma get_loc_elem l ls : l ∈ ls → ∃ n, get_loc l ls = inr n.
Proof.
  induction ls as [|x rest IH]; intros Hin; [inversion Hin|].
  simpl. destruct (String.eqb_spec l x) as [->|Hne]; [eauto|].
  apply elem_of_cons in Hin as [?|Hin]; [contradiction|].
  destruct (IH Hin) as [n ->]. eauto.
Qed.

Lemma get_loc_absent l ls : l ∉ ls → get_loc l ls = inl (KeyError l).
Proof.
  induction ls as [|x rest IH]; intros Hnin; [reflexivity|].
  simpl. apply not_elem_of_cons in Hnin as [Hne Hnin].
  destruct (String.eqb_spec l x) as [->|_]; [contradiction|].
  rewrite (IH Hnin). reflexivity.
Qed.

Lemma contains_true l ls : contains l ls = true ↔ l ∈ ls.
Proof.
  unfold contains. split.
  - destruct (get_loc l ls) as [e|n] eqn:H; [discriminate|]. intros _.
    eapply list_elem_of_lookup_2, get_loc_lookup, H.
  - intros Hin. destruct (get_loc_elem _ _ Hin) as [n ->]. reflexivity.
Qed.

Lemma contains_false l ls : contains l ls = false ↔ l ∉ ls.
Proof.
  rewrite <- contains_true. destruct (contains l ls); split; congruence.
Qed.

(** The position of the label found at position [n] of a list without
    duplicates. *)
Lemma get_loc_NoDup ls n l :
  NoDup ls → ls !! n = Some l → get_loc l ls = inr n.
Proof.
  intros Hnd Hl.
  destruct (get_loc_elem l ls) as [m Hm]; [eapply list_elem_of_lookup_2, Hl|].
  rewrite Hm. f_equal.
  eapply NoDup_lookup; eauto using get_loc_lookup.
Qed.

Lemma get_loc_app_l l ls extra n :
  get_loc l ls = inr n → get_loc l (ls ++ extra) = inr n.
Proof.
  revert n. induction ls as [|x rest IH]; intros n; simpl; [discriminate|].
  destruct (String.eqb l x); [auto|].
  destruct (get_loc l rest) as [e|m]; [discriminate|].
  intros [= <-]. rewrite (IH m eq_refl). reflexivity.
Qed.

Lemma get_loc_snoc_new l ls :
  l ∉ ls → get_loc l (ls ++ [l]) = inr (length ls).
Proof.
  induction ls as [|x rest IH]; intros Hnin; simpl.
  - rewrite String.eqb_refl. reflexivity.
  - apply not_elem_of_cons in Hnin as [Hne Hnin].
    destruct (String.eqb_spec l x) as [->|_]; [contradiction|].
    rewrite (IH Hnin). reflexivity.
Qed.

(** Reading a cell of a well-formed frame whose labels exist succeeds. *)
Lemma at_defined df u i :
  wf df → u ∈ index df → i ∈ columns df → ∃ v, at_ df u i = inr v.
Proof.
  intros (_ & _ & Hlen & Hrows) Hu Hi. unfold at_.
  destruct (get_loc_elem _ _ Hu) as [r Hr], (get_loc_elem _ _ Hi) as [c Hc].
  rewrite Hr, Hc. simpl.
  destruct (lookup_lt_is_Some_2 (values df) r) as [row Hrow].
  { rewrite Hlen. eapply get_loc_lt, Hr. }
  rewrite Hrow.
  destruct (lookup_lt_is_Some_2 row c) as [v Hv].
  { rewrite (proj1 (Forall_lookup _ _) Hrows _ _ Hrow). eapply get_loc_lt, Hc. }
  rewrite Hv. eauto.
Qed.

(** An assignment to a readable cell succeeds and only changes cells. *)
Lemma set_at_defined df u i old v :
  at_ df u i = inr old → ∃ df', set_at df u i v = inr df'.
Proof.
  unfold at_, set_at.
  destruct (get_loc u (index df)) as [|r]; [discriminate|].
  destruct (get_loc i (columns df)) as [|c]; [discriminate|]. simpl.
  destruct (values df !! r) as [row|]; [|discriminate].
  destruct (row !! c) as [x|] eqn:Hx; [|discriminate]. intros _.
  apply lookup_lt_Some in Hx. rewrite decide_True by exact Hx. eauto.
Qed.

Lemma set_at_labels df u i v df' :
  set_at df u i v = inr df' →
  index df' = index df ∧ columns df' = columns df.
Proof.
  unfold set_at.
  destruct (get_loc u (index df)) as [|r]; [discriminate|].
  destruct (get_loc i (columns df)) as [|c]; [discriminate|]. simpl.
  destruct (values df !! r) as [row|]; [|discriminate].
  case_decide; [|discriminate]. intros [= <-]. auto.
Qed.

Lemma set_at_read df u i v df' :
  set_at df u i v = inr df' → at_ df' u i = inr v.
Proof.
  unfold set_at, at_.
  destruct (get_loc u (index df)) as [|r] eqn:Hr; [discriminate|].
  destruct (get_loc i (columns df)) as [|c] eqn:Hc; [discriminate|]. simpl.
  destruct (values df !! r) as [row|] eqn:Hrow; [|discriminate].
  case_decide as Hlt; [|discriminate]. intros [= <-]. simpl.
  rewrite Hr, Hc. simpl.
  rewrite list_lookup_insert_eq by (eapply lookup_lt_Some, Hrow).
  rewrite list_lookup_insert_eq by exact Hlt. reflexivity.
Qed.

Lemma set_at_wf df u i v df' :
  wf df → set_at df u i v = inr df' → wf df'.
Proof.
  intros (Hni & Hnc & Hlen & Hrows). unfold set_at.
  destruct (get_loc u (index df)) as [|r]; [discriminate|].
  destruct (get_loc i (columns df)) as [|c]; [discriminate|]. simpl.
  destruct (values df !! r) as [row|] eqn:Hrow; [|discriminate].
  case_decide; [|discriminate]. intros [= <-].
  repeat split; simpl; auto.
  - rewrite length_insert. exact Hlen.
  - apply Forall_insert; [exact Hrows|].
    rewrite length_insert.
    exact (proj1 (Forall_lookup _ _) Hrows _ _ Hrow).
Qed.

(** Masking a cell and then assigning the value read before the mask
    gives back the frame, cell for cell. *)
Lemma set_at_restore df u i original x df1 :
  at_ df u i = inr original →
  set_at df u i x = inr df1 →
  set_at df1 u i original = inr df.
Proof.
  unfold at_, set_at.
  destruct (get_loc u (index df)) as [|r] eqn:Hr; [discriminate|].
  destruct (get_loc i (columns df)) as [|c] eqn:Hc; [discriminate|]. simpl.
  destruct (values df !! r) as [row|] eqn:Hrow; [|discriminate].
  destruct (row !! c) as [v|] eqn:Hv; [|discriminate]. intros [= ->].
  case_decide as Hlt; [|discriminate]. intros [= <-]. simpl.
  rewrite Hr, Hc. simpl.
  rewrite list_lookup_insert_eq by (eapply lookup_lt_Some, Hrow).
  rewrite length_insert, decide_True by exact Hlt.
  rewrite !list_insert_insert_eq.
  rewrite (list_insert_id row c original Hv).
  rewrite (list_insert_id _ r row Hrow).
  destruct df; reflexivity.
Qed.

Lemma append_row_wf df u x : wf df → u ∉ index df → wf (append_row df u x).
Proof.
  intros (Hni & Hnc & Hlen & Hrows) Hnew. repeat split; simpl; auto.
  - apply NoDup_app. repeat split; [exact Hni| |apply NoDup_singleton].
    intros y Hy Hy'. apply list_elem_of_singleton in Hy'. subst. contradiction.
  - rewrite !length_app, Hlen. reflexivity.
  - apply Forall_app. split; [exact Hrows|].
    constructor; [apply length_replicate|constructor].
Qed.

Lemma append_column_wf df i x : wf df → i ∉ columns df → wf (append_column df i x).
Proof.
  intros (Hni & Hnc & Hlen & Hrows) Hnew. repeat split; simpl; auto.
  - apply NoDup_app. repeat split; [exact Hnc| |apply NoDup_singleton].
    intros y Hy Hy'. apply list_elem_of_singleton in Hy'. subst. contradiction.
  - rewrite length_map. exact Hlen.
  - apply Forall_map. eapply Forall_impl; [exact Hrows|].
    intros row Hrow. simpl. rewrite !length_app, Hrow. reflexivity.
Qed.

End FrameFacts.

(** ** Facts about the feedback manager                                     *)

Module FeedbackFacts.
Import Py Frame Feedback FrameFacts.
Local Open Scope Q_scope.

Lemma Qgtb_true a b : Qgtb a b = true ↔ b < a.
Proof.
  unfold Qgtb. rewrite negb_true_iff, <- not_true_iff_false, Qle_bool_iff.
  split; [apply Qnot_le_lt|apply Qlt_not_le].
Qed.

Lemma Qgtb_false a b : Qgtb a b = false ↔ a <= b.
Proof. unfold Qgtb. rewrite negb_false_iff. apply Qle_bool_iff. Qed.

Lemma Qltb_true a b : Qltb a b = true ↔ a < b.
Proof. apply Qgtb_true. Qed.

Lemma Qltb_false a b : Qltb a b = false ↔ b <= a.
Proof. apply Qgtb_false. Qed.

Ltac clip_cases :=
  unfold clip;
  repeat match goal with
    | |- context [Qgtb ?a ?b] =>
        let H := fresh "Hgt" in
        destruct (Qgtb a b) eqn:H;
        [apply Qgtb_true in H | apply Qgtb_false in H]
    | |- context [Qltb ?a ?b] =>
        let H := fresh "Hlt" in
        destruct (Qltb a b) eqn:H;
        [apply Qltb_true in H | apply Qltb_false in H]
    end.

Lemma clip_range v : -5.0 <= clip v <= 5.0.
Proof. clip_cases; lra. Qed.

Lemma clip_inside v : -5.0 <= v <= 5.0 → clip v = v.
Proof. intros Hv. clip_cases; try reflexivity; lra. Qed.

Lemma clip_above v : 5.0 < v → clip v = 5.0.
Proof. intros Hv. clip_cases; try reflexivity; lra. Qed.

Lemma clip_below v : v < -5.0 → clip v = -5.0.
Proof. intros Hv. clip_cases; try reflexivity; lra. Qed.

Lemma clip_upper v d : -5.0 <= v → 0 <= d → clip (v + d) == Qmin 5.0 (v + d).
Proof.
  intros Hv Hd. destruct (Qlt_le_dec 5.0 (v + d)) as [Hgt|Hle].
  - rewrite (clip_above _ Hgt). symmetry. apply Q.min_l. lra.
  - rewrite clip_inside by lra. symmetry. apply Q.min_r. exact Hle.
Qed.

Lemma default_weight_like : default_weight "like" = 1.0.
Proof. reflexivity. Qed.

Lemma default_weight_dislike : default_weight "dislike" = -1.0.
Proof. reflexivity. Qed.

Lemma default_weight_skip : default_weight "skip" = 0.1.
Proof. reflexivity. Qed.

Lemma default_weight_other a :
  a ≠ "like" → a ≠ "dislike" → a ≠ "skip" → default_weight a = 0.1.
Proof.
  intros H1 H2 H3. unfold default_weight, action_weights. simpl.
  destruct (String.eqb_spec a "like"); [contradiction|].
  destruct (String.eqb_spec a "dislike"); [contradiction|].
  destruct (String.eqb_spec a "skip"); [contradiction|]. reflexivity.
Qed.

(** *** Creating the row and the column *)

Lemma ensure_row_wf df u : wf df → wf (ensure_row df u).
Proof.
  intros Hwf. unfold ensure_row.
  destruct (contains u (index df)) eqn:Hc; simpl; [exact Hwf|].
  apply append_row_wf; [exact Hwf|]. apply contains_false, Hc.
Qed.

Lemma ensure_column_wf df i : wf df → wf (ensure_column df i).
Proof.
  intros Hwf. unfold ensure_column.
  destruct (contains i (columns df)) eqn:Hc; simpl; [exact Hwf|].
  apply append_column_wf; [exact Hwf|]. apply contains_false, Hc.
Qed.

Lemma stored_no_row df u i : u ∉ index df → stored df u i = 0.0.
Proof.
  intros Hu. unfold stored, at_. rewrite (get_loc_absent _ _ Hu). reflexivity.
Qed.

Lemma stored_no_column df u i : i ∉ columns df → stored df u i = 0.0.
Proof.
  intros Hi. unfold stored, at_. rewrite (get_loc_absent _ _ Hi).
  destruct (get_loc u (index df)); reflexivity.
Qed.

Lemma at_append_row_new df u i x :
  wf df → u ∉ index df → i ∈ columns df → at_ (append_row df u x) u i = inr x.
Proof.
  intros (_ & _ & Hlen & _) Hu Hi. unfold at_, append_row. simpl.
  rewrite (get_loc_snoc_new _ _ Hu).
  destruct (get_loc_elem _ _ Hi) as [c Hc]. rewrite Hc. simpl.
  rewrite <- Hlen, list_lookup_middle by reflexivity.
  rewrite lookup_replicate_2 by (eapply get_loc_lt, Hc). reflexivity.
Qed.

Lemma at_append_column_new df u i x :
  wf df → u ∈ index df → i ∉ columns df → at_ (append_column df i x) u i = inr x.
Proof.
  intros (_ & _ & Hlen & Hrows) Hu Hi. unfold at_, append_column. simpl.
  destruct (get_loc_elem _ _ Hu) as [r Hr]. rewrite Hr. simpl.
  rewrite (get_loc_snoc_new _ _ Hi). simpl.
  destruct (lookup_lt_is_Some_2 (values df) r) as [row Hrow].
  { rewrite Hlen. eapply get_loc_lt, Hr. }
  rewrite list_lookup_fmap, Hrow. simpl.
  rewrite <- (proj1 (Forall_lookup _ _) Hrows _ _ Hrow).
  rewrite list_lookup_middle by reflexivity. reflexivity.
Qed.

(** After the row and the column have been created the cell exists and
    holds the value the pair had, 0.0 for a new pair. *)
Lemma at_ensured df u i :
  wf df → at_ (ensure_column (ensure_row df u) i) u i = inr (stored df u i).
Proof.
  intros Hwf. unfold ensure_row.
  destruct (contains u (index df)) eqn:Hu; simpl.
  - apply contains_true in Hu. unfold ensure_column.
    destruct (contains i (columns df)) eqn:Hi; simpl.
    + apply contains_true in Hi.
      destruct (at_defined df u i Hwf Hu Hi) as [v Hv].
      unfold stored. rewrite Hv. reflexivity.
    + apply contains_false in Hi.
      rewrite (stored_no_column _ _ _ Hi).
      apply at_append_column_new; assumption.
  - apply contains_false in Hu. rewrite (stored_no_row _ _ _ Hu).
    pose proof (append_row_wf df u 0.0 Hwf Hu) as Hwf1.
    unfold ensure_column.
    destruct (contains i (columns (append_row df u 0.0))) eqn:Hi; simpl.
    + apply contains_true in Hi. apply at_append_row_new; assumption.
    + apply contains_false in Hi.
      apply at_append_column_new; [exact Hwf1| |exact Hi].
      simpl. apply elem_of_app. right. apply list_elem_of_singleton. reflexivity.
Qed.

End FeedbackFacts.

(** ** What one call of [record] does                                      *)

Module RecordFacts.
Import Py Frame Feedback FrameFacts FeedbackFacts.
Local Open Scope Q_scope.

Section Manager.
Context {FS : Type} (os : Platform FS) (dumps : log_entry -> string).

Local Abbreviation record := (record os dumps).
Local Abbreviation record_times := (record_times os dumps).
Local Abbreviation world := (@world FS).

(** The line [record] writes for a call. *)
Local Abbreviation line u i a d := (dumps (mkEntry u i a d) +:+ newline).

(** A call on a well-formed frame first stores the clipped sum in the
    cell, then appends the log line; its outcome is the outcome of the
    append, and the frame is updated in both cases. *)
Lemma record_run self u i a wt (w : world) :
  wf (interactions_df w) →
  let d := match wt with None => default_weight a | Some x => x end in
  ∃ df',
    set_at (ensure_column (ensure_row (interactions_df w) u) i) u i
           (clip (stored (interactions_df w) u i + d)) = inr df' ∧
    record self u i a wt w =
      (match fst (append_text os (log_path self) (line u i a d) (fs w)) with
       | inl e => inl e
       | inr _ => inr df'
       end,
       mkWorld df' (snd (append_text os (log_path self) (line u i a d) (fs w)))).
Proof.
  intros Hwf d.
  pose proof (at_ensured _ u i Hwf) as Hat.
  destruct (set_at_defined _ _ _ _ (clip (stored (interactions_df w) u i + d)) Hat)
    as [df' Hset].
  exists df'. split; [exact Hset|].
  unfold record, Feedback.record, bind, read_df, write_df, lift, on_fs. simpl.
  fold d. rewrite Hat, Hset. simpl.
  destruct (append_text os (log_path self) (line u i a d) (fs w)) as [[e|[]] fs'];
    reflexivity.
Qed.

Lemma record_cell self u i a wt (w : world) :
  wf (interactions_df w) →
  at_ (interactions_df (snd (record self u i a wt w))) u i
  = inr (clip (stored (interactions_df w) u i
               + match wt with None => default_weight a | Some x => x end)).
Proof.
  intros Hwf. destruct (record_run self u i a wt w Hwf) as (df' & Hset & ->).
  simpl. eapply set_at_read, Hset.
Qed.

Lemma record_wf self u i a wt (w : world) :
  wf (interactions_df w) → wf (interactions_df (snd (record self u i a wt w))).
Proof.
  intros Hwf. destruct (record_run self u i a wt w Hwf) as (df' & Hset & ->).
  simpl. eapply set_at_wf; [|exact Hset].
  apply ensure_column_wf, ensure_row_wf, Hwf.
Qed.

Lemma record_stored self u i a wt (w : world) :
  wf (interactions_df w) →
  stored (interactions_df (snd (record self u i a wt w))) u i
  = clip (stored (interactions_df w) u i
          + match wt with None => default_weight a | Some x => x end).
Proof.
  intros Hwf. unfold stored at 1. rewrite record_cell by exact Hwf. reflexivity.
Qed.

Lemma record_times_wf n self u i a (w : world) :
  wf (interactions_df w) → wf (interactions_df (record_times n self u i a w)).
Proof.
  revert w. induction n as [|n IH]; intros w Hwf; simpl; [exact Hwf|].
  apply IH, record_wf, Hwf.
Qed.

Lemma record_times_range n self u i a (w : world) :
  wf (interactions_df w) →
  -5.0 <= stored (interactions_df w) u i <= 5.0 →
  -5.0 <= stored (interactions_df (record_times n self u i a w)) u i <= 5.0.
Proof.
  revert w. induction n as [|n IH]; intros w Hwf Hrange; simpl; [exact Hrange|].
  apply IH; [apply record_wf, Hwf|].
  rewrite record_stored by exact Hwf. apply clip_range.
Qed.

(** C1. A call of [record] on a pair whose value is in [-5.0, 5.0]
    leaves a value in [-5.0, 5.0] in the cell, whatever the action and
    whatever (finite) weight is given; a "like" stores the old value plus the delta 1.0 capped
    at 5.0, which is strictly more than the old value as long as that
    was below the cap; and after any number of successive "dislike"
    calls the value is still at least -5.0 (and at most 5.0). *)
Theorem record_keeps_value_in_bounds self u i (w : world) :
  wf (interactions_df w) →
  -5.0 <= stored (interactions_df w) u i <= 5.0 →
  (∀ a wt, ∃ v,
      at_ (interactions_df (snd (record self u i a wt w))) u i = inr v ∧
      -5.0 <= v <= 5.0) ∧
  (∃ v,
      at_ (interactions_df (snd (record self u i "like" None w))) u i = inr v ∧
      v == Qmin 5.0 (stored (interactions_df w) u i + 1.0) ∧
      (stored (interactions_df w) u i < 5.0 →
       stored (interactions_df w) u i < v)) ∧
  (∀ n,
      -5.0 <= stored (interactions_df (record_times n self u i "dislike" w)) u i
      <= 5.0).
Proof.
  intros Hwf Hrange. split; [|split].
  - intros a wt. eexists. split; [apply record_cell, Hwf|apply clip_range].
  - eexists. split; [apply record_cell, Hwf|].
    rewrite default_weight_like.
    assert (clip (stored (interactions_df w) u i + 1.0)
            == Qmin 5.0 (stored (interactions_df w) u i + 1.0)) as Hclip
        by (apply clip_upper; lra).
    split; [exact Hclip|].
    intros Hlt. rewrite Hclip. apply Q.min_glb_lt; lra.
  - intros n. apply record_times_range; assumption.
Qed.

(** C4. The cell is updated before the log line is appended and the
    update is never undone: after the call the matrix holds the clipped
    sum whatever the append did, in particular when the append raised
    (in which case [record] raises the same exception to its caller). *)
Theorem record_update_independent_of_log self u i a wt (w : world) :
  wf (interactions_df w) →
  let d := match wt with None => default_weight a | Some x => x end in
  at_ (interactions_df (snd (record self u i a wt w))) u i
  = inr (clip (stored (interactions_df w) u i + d)) ∧
  ∀ e, fst (append_text os (log_path self) (line u i a d) (fs w)) = inl e →
       fst (record self u i a wt w) = inl e ∧
       at_ (interactions_df (snd (record self u i a wt w))) u i
       = inr (clip (stored (interactions_df w) u i + d)).
Proof.
  intros Hwf d. split; [apply record_cell, Hwf|].
  intros e He. split; [|apply record_cell, Hwf].
  destruct (record_run self u i a wt w Hwf) as (df' & _ & ->).
  simpl. fold d. rewrite He. reflexivity.
Qed.

Lemma record_default_delta self u i a (w : world) :
  wf (interactions_df w) →
  at_ (interactions_df (snd (record self u i a None w))) u i
  = inr (clip (stored (interactions_df w) u i + default_weight a)) ∧
  fs (snd (record self u i a None w))
  = snd (append_text os (log_path self) (line u i a (default_weight a)) (fs w)).
Proof.
  intros Hwf. split; [exact (record_cell self u i a None w Hwf)|].
  destruct (record_run self u i a None w Hwf) as (df' & _ & ->). reflexivity.
Qed.

(** C6. Without an explicit weight, the delta added to the pair's value
    (before clipping) and written to the log is 1.0 for "like", -1.0
    for "dislike" and 0.1 for "skip". *)
Theorem record_default_deltas self u i (w : world) :
  wf (interactions_df w) →
  (at_ (interactions_df (snd (record self u i "like" None w))) u i
   = inr (clip (stored (interactions_df w) u i + 1.0)) ∧
   fs (snd (record self u i "like" None w))
   = snd (append_text os (log_path self) (line u i "like" 1.0) (fs w))) ∧
  (at_ (interactions_df (snd (record self u i "dislike" None w))) u i
   = inr (clip (stored (interactions_df w) u i + -1.0)) ∧
   fs (snd (record self u i "dislike" None w))
   = snd (append_text os (log_path self) (line u i "dislike" (-1.0)) (fs w))) ∧
  (at_ (interactions_df (snd (record self u i "skip" None w))) u i
   = inr (clip (stored (interactions_df w) u i + 0.1)) ∧
   fs (snd (record self u i "skip" None w))
   = snd (append_text os (log_path self) (line u i "skip" 0.1) (fs w))).
Proof.
  intros Hwf.
  pose proof (record_default_delta self u i "like" w Hwf) as Hlike.
  pose proof (record_default_delta self u i "dislike" w Hwf) as Hdislike.
  pose proof (record_default_delta self u i "skip" w Hwf) as Hskip.
  rewrite default_weight_like in Hlike.
  rewrite default_weight_dislike in Hdislike.
  rewrite default_weight_skip in Hskip.
  exact (conj Hlike (conj Hdislike Hskip)).
Qed.

(** C10. An action outside like, dislike and skip, given without a
    weight, is not rejected: the call adds the skip delta 0.1 to the
    pair's value (clipped), appends a log line carrying the action as
    given with delta 0.1, and raises only if that append raises. *)
Theorem record_unknown_action_as_skip self u i a (w : world) :
  a ≠ "like" → a ≠ "dislike" → a ≠ "skip" →
  wf (interactions_df w) →
  at_ (interactions_df (snd (record self u i a None w))) u i
  = inr (clip (stored (interactions_df w) u i + 0.1)) ∧
  fs (snd (record self u i a None w))
  = snd (append_text os (log_path self) (line u i a 0.1) (fs w)) ∧
  (is_ok (fst (append_text os (log_path self) (line u i a 0.1) (fs w))) = true →
   is_ok (fst (record self u i a None w)) = true) ∧
  (∀ e, fst (record self u i a None w) = inl e →
        fst (append_text os (log_path self) (line u i a 0.1) (fs w)) = inl e).
Proof.
  intros H1 H2 H3 Hwf.
  pose proof (default_weight_other a H1 H2 H3) as Hd.
  pose proof (record_default_delta self u i a w Hwf) as [Hcell Hlog].
  rewrite Hd in Hcell, Hlog.
  split; [exact Hcell|]. split; [exact Hlog|].
  destruct (record_run self u i a None w Hwf) as (df' & _ & Hrun).
  cbv zeta in Hrun. rewrite Hd in Hrun. rewrite Hrun.
  cbn [fst snd].
  destruct (fst (append_text os (log_path self) (line u i a 0.1) (fs w)))
    as [e'|[]]; cbn [is_ok]; split; intros; congruence.
Qed.

End Manager.

End RecordFacts.

(** ** Facts about the holdout evaluation                                  *)

Module EvaluationFacts.
Import Py Frame Evaluation FrameFacts FeedbackFacts.
Local Open Scope Q_scope.

(** *** Loops whose body gives the world back as it found it *)

Lemma for_each_restores {W A B} (body : B → A → M W B) :
  (∀ acc a w, snd (body acc a w) = w) →
  ∀ l acc w, snd (for_each body acc l w) = w.
Proof.
  intros Hbody l. induction l as [|a rest IH]; intros acc w; [reflexivity|].
  simpl. unfold bind. specialize (Hbody acc a w).
  destruct (body acc a w) as [[e|acc'] w']; simpl in Hbody; subst w'.
  - reflexivity.
  - apply IH.
Qed.

(** If the body raises on some element, whatever it has accumulated,
    the loop raises. *)
Lemma for_each_raises {W A B} (body : B → A → M W B) (w : W) (bad : A) :
  (∀ acc a, snd (body acc a w) = w) →
  (∀ acc, is_ok (fst (body acc bad w)) = false) →
  ∀ l acc, bad ∈ l → is_ok (fst (for_each body acc l w)) = false.
Proof.
  intros Hkeep Hbad l. induction l as [|a rest IH]; intros acc Hin.
  - inversion Hin.
  - simpl. unfold bind. specialize (Hkeep acc a).
    destruct (body acc a w) as [[e|acc'] w'] eqn:Hstep; simpl in Hkeep; subst w'.
    + reflexivity.
    + apply elem_of_cons in Hin as [<-|Hin]; [|apply IH, Hin].
      specialize (Hbad acc). rewrite Hstep in Hbad. discriminate.
Qed.

(** The loop stops at the first element on which the body raises: the
    exception is that one, and the elements after it play no part. *)
Lemma for_each_first_failure {W A B} (body : B → A → M W B) (w : W)
    (before : list A) (bad : A) (after : list A) (e : exn) :
  (∀ a, a ∈ before → ∀ acc, ∃ acc', body acc a w = (inr acc', w)) →
  (∀ acc, body acc bad w = (inl e, w)) →
  ∀ acc, for_each body acc (before ++ bad :: after) w = (inl e, w).
Proof.
  intros Hbefore Hbad. induction before as [|a rest IH]; intros acc; simpl.
  - unfold bind. rewrite Hbad. reflexivity.
  - unfold bind.
    destruct (Hbefore a (list_elem_of_here a rest) acc) as [acc' ->].
    apply IH. intros a' Hin. apply Hbefore, list_elem_of_further, Hin.
Qed.

Section Holdout.
Variable recommend : DataFrame → string → Z → result (list recommendation).

Local Abbreviation score_user := (score_user recommend).
Local Abbreviation holdout_user := (holdout_user recommend).
Local Abbreviation evaluate_holdout_at_k := (evaluate_holdout_at_k recommend).

(** The [try] block reads the frame and never writes it. *)
Lemma score_user_reads u t k acc df : snd (score_user u t k acc df) = df.
Proof.
  unfold score_user, Evaluation.score_user, bind, get, lift, ret.
  destruct (recommend df u k) as [e|recs]; [reflexivity|].
  destruct (ids_of recs) as [e|pred]; reflexivity.
Qed.

(** One user, step by step: once the cell is masked, the outcome is
    the outcome of the [try] block and the frame is the one before
    the mask. *)
Lemma holdout_user_masked k acc u row df t rest original df0 :
  positive_labels (columns df) row = t :: rest →
  at_ df u t = inr original →
  set_at df u t 0 = inr df0 →
  holdout_user k acc (u, row) df = (fst (score_user u t k acc df0), df).
Proof.
  intros Hpos Hat Hset.
  unfold holdout_user, Evaluation.holdout_user, bind, get. simpl.
  rewrite Hpos. unfold lift. rewrite Hat.
  unfold assign, bind, get, lift, put. rewrite Hset.
  unfold try_finally.
  pose proof (score_user_reads u t k acc df0) as Hread.
  destruct (score_user u t k acc df0) as [r df1]. simpl in Hread. subst df1.
  rewrite (set_at_restore df u t original 0 df0 Hat Hset). reflexivity.
Qed.

Lemma holdout_user_restores k acc it df : snd (holdout_user k acc it df) = df.
Proof.
  destruct it as [u row].
  destruct (positive_labels (columns df) row) as [|t rest] eqn:Hpos.
  { unfold holdout_user, Evaluation.holdout_user, bind, get. simpl.
    rewrite Hpos. reflexivity. }
  destruct (at_ df u t) as [e|original] eqn:Hat.
  { unfold holdout_user, Evaluation.holdout_user, bind, get, lift. simpl.
    rewrite Hpos, Hat. reflexivity. }
  destruct (set_at df u t 0) as [e|df0] eqn:Hset.
  { unfold holdout_user, Evaluation.holdout_user, bind, get, lift. simpl.
    rewrite Hpos, Hat. unfold assign, bind, get, lift. rewrite Hset. reflexivity. }
  rewrite (holdout_user_masked k acc u row df t rest original df0 Hpos Hat Hset).
  reflexivity.
Qed.

Lemma holdout_user_skips k acc u row df :
  positive_labels (columns df) row = [] →
  holdout_user k acc (u, row) df = (inr acc, df).
Proof.
  intros Hpos. unfold holdout_user, Evaluation.holdout_user, bind, get. simpl.
  rewrite Hpos. reflexivity.
Qed.

Lemma evaluate_restores k df : snd (evaluate_holdout_at_k k df) = df.
Proof.
  unfold evaluate_holdout_at_k, Evaluation.evaluate_holdout_at_k, bind, get.
  pose proof (for_each_restores (holdout_user k)
                (fun acc it w => holdout_user_restores k acc it w)
                (iterrows df) (mkSamples [] [] [] []) df) as Hloop.
  destruct (for_each _ _ _ df) as [[e|acc] df']; simpl in Hloop; subst df';
    reflexivity.
Qed.

(** C2. Whatever the frame, [k] and the recommender, the frame after
    [evaluate_holdout_at_k] is the frame before it, cell for cell:
    both when the call returns metrics and when it raises, which is
    what a raising [recommend] makes it do after the [finally] clause
    has put the held-out value back. *)
Theorem evaluate_holdout_leaves_matrix_unchanged k df :
  match evaluate_holdout_at_k k df with
  | (inr _, df') => df' = df
  | (inl _, df') => df' = df
  end.
Proof.
  pose proof (evaluate_restores k df) as H.
  destruct (evaluate_holdout_at_k k df) as [[e|m] df']; exact H.
Qed.

Lemma evaluate_raises_when_user_raises k df it :
  it ∈ iterrows df →
  (∀ acc, is_ok (fst (holdout_user k acc it df)) = false) →
  is_ok (fst (evaluate_holdout_at_k k df)) = false.
Proof.
  intros Hin Hbad.
  unfold evaluate_holdout_at_k, Evaluation.evaluate_holdout_at_k, bind, get.
  pose proof (for_each_raises (holdout_user k) df it
                (fun acc a => holdout_user_restores k acc a df) Hbad
                (iterrows df) (mkSamples [] [] [] []) Hin) as Hloop.
  destruct (for_each _ _ _ df) as [[e|acc] df']; [reflexivity|discriminate].
Qed.

(** The loop body calls the recommender for its own user only. *)
Lemma holdout_user_ext recommend' k acc u row df :
  (∀ d, recommend' d u k = recommend d u k) →
  Evaluation.holdout_user recommend' k acc (u, row) df
  = holdout_user k acc (u, row) df.
Proof.
  intros Hsame.
  unfold holdout_user, Evaluation.holdout_user, bind, get. simpl.
  destruct (positive_labels (columns df) row) as [|t rest]; [reflexivity|].
  unfold lift. destruct (at_ df u t) as [e|original]; [reflexivity|].
  unfold assign, bind, get, lift, put.
  destruct (set_at df u t 0) as [e|df0]; [reflexivity|].
  unfold try_finally, Evaluation.score_user, bind, get, lift.
  rewrite Hsame. reflexivity.
Qed.

(** C3, as the code has it. Let the processing of every user before
    [u] return, and let [recommend] raise [e] for [u] on the frame with
    the held-out cell masked. Nothing catches [e]: the loop body puts the
    cell back and raises [e], and [evaluate_holdout_at_k] raises that
    same [e] with no metrics and the frame as it was. No later user is
    evaluated: the outcome is the same for every recommender that agrees
    with this one on [u] and the users before, whatever it does for the
    users after. *)
Theorem evaluate_holdout_propagates_user_failure
    k df before u row after t rest df0 e :
  iterrows df = before ++ (u, row) :: after →
  (∀ it acc, it ∈ before → is_ok (fst (holdout_user k acc it df)) = true) →
  positive_labels (columns df) row = t :: rest →
  set_at df u t 0 = inr df0 →
  recommend df0 u k = inl e →
  (∀ acc, holdout_user k acc (u, row) df = (inl e, df)) ∧
  evaluate_holdout_at_k k df = (inl e, df) ∧
  (∀ recommend',
     (∀ d v, v = u ∨ v ∈ map fst before → recommend' d v k = recommend d v k) →
     Evaluation.evaluate_holdout_at_k recommend' k df = (inl e, df)).
Proof.
  intros Hrows Hbefore Hpos Hset Hrec.
  assert (∃ original, at_ df u t = inr original) as [original Hat].
  { revert Hset. unfold set_at, at_.
    destruct (get_loc u (index df)) as [|r]; [discriminate|].
    destruct (get_loc t (columns df)) as [|c]; [discriminate|]. simpl.
    destruct (values df !! r) as [cells|]; [|discriminate].
    case_decide as Hlt; [|discriminate]. intros _.
    destruct (lookup_lt_is_Some_2 cells c Hlt) as [v ->]. eauto. }
  assert (∀ acc, holdout_user k acc (u, row) df = (inl e, df)) as Hstep.
  { intros acc.
    rewrite (holdout_user_masked k acc u row df t rest original df0 Hpos Hat Hset).
    unfold score_user, Evaluation.score_user, bind, get, lift.
    rewrite Hrec. reflexivity. }
  assert (∀ recommend',
            (∀ d v, v = u ∨ v ∈ map fst before →
                    recommend' d v k = recommend d v k) →
            Evaluation.evaluate_holdout_at_k recommend' k df = (inl e, df))
    as Hany.
  { intros recommend' Hsame.
    unfold Evaluation.evaluate_holdout_at_k, bind, get. rewrite Hrows.
    rewrite (for_each_first_failure (Evaluation.holdout_user recommend' k)
               df before (u, row) after e); [reflexivity| |].
    - intros [v row'] Hin acc.
      rewrite holdout_user_ext.
      2:{ intros d. apply Hsame. right.
          apply (list_elem_of_fmap_2 fst before (v, row')), Hin. }
      pose proof (Hbefore (v, row') acc Hin) as Hok.
      pose proof (holdout_user_restores k acc (v, row') df) as Hkeep.
      destruct (holdout_user k acc (v, row') df) as [[e'|acc'] df'];
        simpl in Hok, Hkeep; [discriminate|]. subst df'. eauto.
    - intros acc. rewrite holdout_user_ext; [apply Hstep|].
      intros d. apply Hsame. left. reflexivity. }
  split; [exact Hstep|]. split; [|exact Hany].
  apply (Hany recommend). reflexivity.
Qed.

End Holdout.

End EvaluationFacts.

(** ** Average precision with one held-out item                            *)

Module AveragePrecisionFacts.
Import Py Frame Evaluation FrameFacts.
Local Open Scope Q_scope.

Lemma mem_singleton p t : mem p [t] = String.eqb p t.
Proof. simpl. destruct (String.eqb p t); reflexivity. Qed.

(** Past the last occurrence of the item the loop adds nothing. *)
Lemma ap_loop_absent t l i hits score :
  t ∉ l → ap_loop [t] l i hits score = score.
Proof.
  revert i hits score. induction l as [|p rest IH]; intros i hits score Hnin;
    [reflexivity|].
  apply not_elem_of_cons in Hnin as [Hne Hnin]. simpl.
  destruct (String.eqb_spec p t) as [->|_]; [contradiction|].
  apply IH, Hnin.
Qed.

(** With no hit so far and the item at one position only, the loop adds
    the reciprocal of that position. *)
Lemma ap_loop_once t l i score j :
  l !! j = Some t →
  (∀ j', l !! j' = Some t → j' = j) →
  ap_loop [t] l i 0 score == score + 1 / inject_Z (i + Z.of_nat j).
Proof.
  revert i score j. induction l as [|p rest IH]; intros i score j Hj Honce;
    [discriminate|].
  simpl. destruct j as [|j].
  - injection Hj as ->. rewrite String.eqb_refl.
    rewrite ap_loop_absent.
    + simpl. rewrite Z.add_0_r. reflexivity.
    + intros Hin. apply list_elem_of_lookup in Hin as [j' Hj'].
      discriminate (Honce (S j') Hj').
  - destruct (String.eqb_spec p t) as [->|Hne].
    + discriminate (Honce 0%nat eq_refl).
    + rewrite (IH (i + 1)%Z score j Hj).
      * replace (i + 1 + Z.of_nat j)%Z with (i + Z.of_nat (S j))%Z by lia.
        reflexivity.
      * intros j' Hj'. specialize (Honce (S j') Hj'). lia.
Qed.

(** The denominator for one held-out item is 1, so the average precision
    is the score of the loop over the first [max(1, k)] ids. *)
Lemma average_precision_one_item t predicted k :
  average_precision_at_k [t] predicted k
  == ap_loop [t] (take (Z.to_nat (Z.max 1 k)) predicted) 1 0 0.0.
Proof.
  assert (Z.min (Z.max 1 k) (len (to_set [t])) = 1%Z) as Hdenom
      by (change (len (to_set [t])) with 1%Z; lia).
  unfold average_precision_at_k. cbv zeta. rewrite Hdenom.
  change (1 >? 0)%Z with true. cbv iota.
  change (to_set [t]) with [t]. unfold first_k.
  change (inject_Z 1) with 1. field.
Qed.

(** C8, as the code has it. With a single held-out item that stands at
    one position only among the first [max(1, k)] predicted ids, the
    average precision is 1/rank, where rank is that position counted from
    1; when the item stands at none of these positions, wherever else in
    the predicted list it may stand, the average precision is 0. *)
Theorem average_precision_single_holdout t predicted k :
  let top := Z.to_nat (Z.max 1 k) in
  (∀ j, (j < top)%nat →
        predicted !! j = Some t →
        (∀ j', (j' < top)%nat → predicted !! j' = Some t → j' = j) →
        average_precision_at_k [t] predicted k
        == 1 / inject_Z (Z.of_nat j + 1)) ∧
  ((∀ j, (j < top)%nat → predicted !! j ≠ Some t) →
   average_precision_at_k [t] predicted k == 0).
Proof.
  intros top. split.
  - intros j Hlt Hj Honce. rewrite average_precision_one_item. fold top.
    rewrite (ap_loop_once t (take top predicted) 1 0.0 j).
    + rewrite (Z.add_comm 1). field.
      intros H. apply (Qeq_bool_neq (inject_Z (Z.of_nat j + 1)) 0); [|exact H].
      unfold Qeq_bool. simpl. apply Z.eqb_neq. lia.
    + apply lookup_take_Some. split; [exact Hj|exact Hlt].
    + intros j' Hj'. apply lookup_take_Some in Hj' as [Hj' Hlt'].
      apply Honce; assumption.
  - intros Hnone. rewrite average_precision_one_item. fold top.
    rewrite ap_loop_absent; [reflexivity|].
    intros Hin. apply list_elem_of_lookup in Hin as [j Hj].
    apply lookup_take_Some in Hj as [Hj Hlt]. exact (Hnone j Hlt Hj).
Qed.

End AveragePrecisionFacts.

(** ** Facts about loading the datasets                                    *)

Module PreprocessingFacts.
Import Py Frame Preprocessing FrameFacts.

Lemma reindex_columns_labels df target fill df' :
  reindex_columns df target fill = inr df' →
  columns df' = target ∧ index df' = index df.
Proof.
  unfold reindex_columns.
  case_decide as Hsame; [intros [= <-]; auto|].
  case_decide; [|discriminate]. intros [= <-]. auto.
Qed.

Lemma reindex_row_length old target fill row :
  length (reindex_row old target fill row) = length target.
Proof. unfold reindex_row. apply length_map. Qed.

Lemma reindex_columns_rows df target fill df' :
  wf df →
  reindex_columns df target fill = inr df' →
  length (values df') = length (index df') ∧
  Forall (fun row => length row = length target) (values df').
Proof.
  intros (_ & _ & Hlen & Hrows). unfold reindex_columns.
  case_decide as Hsame; [intros [= <-]; subst target; auto|].
  case_decide; [|discriminate]. intros [= <-]. simpl. split.
  - rewrite length_map. exact Hlen.
  - apply Forall_map, Forall_forall. intros row _. apply reindex_row_length.
Qed.

(** A cell of the reindexed frame: the old cell under a label that was
    a column, the fill value under a label that was not. *)
Lemma reindex_columns_cell df target fill df' u c :
  wf df →
  reindex_columns df target fill = inr df' →
  u ∈ index df → c ∈ target →
  at_ df' u c = if contains c (columns df) then at_ df u c else inr fill.
Proof.
  intros Hwf Hre Hu Hc. pose proof Hwf as (_ & _ & Hlen & Hrows).
  revert Hre. unfold reindex_columns.
  case_decide as Hsame.
  { intros [= <-]. subst target.
    rewrite (proj2 (contains_true _ _) Hc). reflexivity. }
  case_decide; [|discriminate]. intros [= <-].
  destruct (get_loc_elem _ _ Hu) as [r Hr], (get_loc_elem _ _ Hc) as [j Hj].
  destruct (lookup_lt_is_Some_2 (values df) r) as [row Hrow].
  { rewrite Hlen. eapply get_loc_lt, Hr. }
  pose proof (proj1 (Forall_lookup _ _) Hrows _ _ Hrow) as Hrowlen.
  unfold at_ at 1. simpl. rewrite Hr, Hj. simpl.
  rewrite list_lookup_fmap, Hrow. simpl.
  unfold reindex_row. rewrite list_lookup_fmap, (get_loc_lookup _ _ _ Hj). simpl.
  unfold contains, at_. rewrite Hr. simpl.
  destruct (get_loc c (columns df)) as [e|p] eqn:Hp; simpl; [reflexivity|].
  rewrite Hrow.
  destruct (lookup_lt_is_Some_2 row p) as [v Hv].
  { rewrite Hrowlen. eapply get_loc_lt, Hp. }
  rewrite Hv. reflexivity.
Qed.

Section Loader.
Variable read_items : string → result RawItems.
Variable read_interactions : string → result DataFrame.

Local Abbreviation load_reco_datasets :=
  (load_reco_datasets read_items read_interactions).

(** What a successful load has read and returned. *)
Lemma load_reco_datasets_ok base_dir items interactions :
  load_reco_datasets base_dir = inr (items, interactions) →
  ∃ raw loaded,
    read_items (base_dir +:+ "/items.csv") = inr raw ∧
    raw_item_id raw = Some (item_id items) ∧
    read_interactions (base_dir +:+ "/interactions.csv") = inr loaded ∧
    reindex_columns loaded (item_id items) 0 = inr interactions.
Proof.
  unfold load_reco_datasets, Preprocessing.load_reco_datasets, rbind.
  destruct (read_items _) as [e|raw]; [discriminate|].
  destruct (read_interactions _) as [e|loaded]; [discriminate|].
  destruct (raw_item_id raw) as [ids|] eqn:Hids; [|discriminate].
  destruct (reindex_columns loaded ids 0) as [e|df'] eqn:Hre; [discriminate|].
  intros [= <- <-]. exists raw, loaded. simpl. repeat split; auto.
Qed.

(** C7. After a successful load the columns of the interaction matrix
    are the catalog's item ids in catalog order, so every catalog item
    has a column and no other label has one; and over a well-formed
    interactions file every row has one cell per catalog item, which
    holds the file's value when the file had that column and 0 when it
    had not. *)
Theorem load_reco_datasets_columns_are_catalog base_dir items interactions :
  load_reco_datasets base_dir = inr (items, interactions) →
  columns interactions = item_id items ∧
  ∃ loaded,
    read_interactions (base_dir +:+ "/interactions.csv") = inr loaded ∧
    index interactions = index loaded ∧
    (wf loaded →
     Forall (fun row => length row = length (item_id items))
            (values interactions) ∧
     ∀ u c, u ∈ index loaded → c ∈ item_id items →
            at_ interactions u c
            = if contains c (columns loaded) then at_ loaded u c else inr 0%Q).
Proof.
  intros Hload.
  destruct (load_reco_datasets_ok _ _ _ Hload) as (raw & loaded & _ & _ & Hread & Hre).
  destruct (reindex_columns_labels _ _ _ _ Hre) as [Hcols Hidx].
  split; [exact Hcols|]. exists loaded. split; [exact Hread|].
  split; [exact Hidx|]. intros Hwf. split.
  - apply (reindex_columns_rows _ _ _ _ Hwf Hre).
  - intros u c Hu Hc. apply (reindex_columns_cell _ _ _ _ _ _ Hwf Hre Hu Hc).
Qed.

End Loader.

End PreprocessingFacts.

(** ** Facts about the endpoints                                            *)

Module ApiFacts.
Import Py RecoApi FeedbackFacts.
Local Open Scope Q_scope.

Section Blueprint.
Context {FS : Type} (os : Platform FS).
Context {Engine : Type}.
Variable RecommendationEngine : string → M FS Engine.
Variable engine_feedback : json → json → Q → M (Engine * FS) unit.
Variable evaluate_at_k : Z → string → M (Engine * FS) (list (string * json)).
Variable float_of_string : string → option Q.
Variable int_of_string : string → option Z.
Variable dumps : json → string.
Variable service_root : string.

Local Abbreviation world := (@world FS Engine).
Local Abbreviation feedback :=
  (feedback os RecommendationEngine engine_feedback float_of_string
            dumps service_root).
Local Abbreviation request_rating := (request_rating float_of_string).
Local Abbreviation metrics :=
  (metrics os RecommendationEngine evaluate_at_k int_of_string
           service_root).
Local Abbreviation arg_k := (arg_k int_of_string).

(** *** The feedback endpoint *)

Lemma request_rating_not_dict data e :
  get_method data "user_id" JNull = inl e → request_rating data = inl e.
Proof.
  unfold request_rating, RecoApi.request_rating.
  destruct data; simpl; intros [= <-]; reflexivity.
Qed.

(** C5, as the code has it. When the rating field converts with
    [float()] (an absent field counting as 0), a request that lacks a user
    id or an item id is answered with the 400 validation error about the
    ids, and one that has both with a rating that is not positive with the
    400 validation error about the rating. When both ids are there and
    [float()] raises on the rating, the answer is the 500 of the generic
    handler with the text of that exception. Each of these answers leaves
    the engine, the other globals and the file system as they were, and so
    does every answer to a request that lacks an id. *)
Theorem feedback_rejects_invalid_request parsed ts (w : world) :
  let data := request_data parsed in
  let missing key :=
    ∀ v, get_method data key JNull = inr v → truthy v = false in
  let present key :=
    ∃ v, get_method data key JNull = inr v ∧ truthy v = true in
  (∀ rating, request_rating data = inr rating →
     (missing "user_id" ∨ missing "item_id" →
      feedback (inr parsed) ts w
      = (error_response "user_id and item_id are required" 400, w)) ∧
     (present "user_id" → present "item_id" → rating <= 0 →
      feedback (inr parsed) ts w
      = (error_response "rating must be > 0" 400, w))) ∧
  (∀ e, request_rating data = inl e →
     present "user_id" → present "item_id" →
     feedback (inr parsed) ts w = (error_response (str_exn e) 500, w)) ∧
  (missing "user_id" ∨ missing "item_id" →
   snd (feedback (inr parsed) ts w) = w).
Proof.
  intros data missing present.
  unfold feedback, RecoApi.feedback, handle, feedback_try, bind, lift.
  fold data. fold (request_rating data).
  destruct (get_method data "user_id" JNull) as [e|u] eqn:Hu.
  { rewrite (request_rating_not_dict _ _ Hu).
    split; [intros rating [=]|].
    split; [|reflexivity].
    intros e' _ [v [Hv _]]. subst present. simpl in Hv.
    rewrite Hu in Hv. discriminate. }
  destruct (get_method data "item_id" JNull) as [e|i] eqn:Hi.
  { destruct data; discriminate. }
  assert (Hmissing : missing "user_id" ∨ missing "item_id" →
                     negb (truthy u) || negb (truthy i) = true).
  { intros [H|H].
    - rewrite (H u Hu). reflexivity.
    - rewrite (H i Hi). apply orb_true_r. }
  assert (Hpresent : present "user_id" → present "item_id" →
                     negb (truthy u) || negb (truthy i) = false).
  { intros [v [Hv Htv]] [v' [Hv' Htv']].
    assert (v = u) as -> by congruence.
    assert (v' = i) as -> by congruence.
    rewrite Htv, Htv'. reflexivity. }
  destruct (request_rating data) as [e|rating'] eqn:Hrating.
  - split; [intros rating [=]|].
    split; [|reflexivity].
    intros e' [= <-] _ _. reflexivity.
  - split; [|split; [intros e [=]|]].
    + intros rating [= <-]. split.
      * intros Hm. rewrite (Hmissing Hm). reflexivity.
      * intros Hpu Hpi Hle. rewrite (Hpresent Hpu Hpi).
        apply Qle_bool_iff in Hle. rewrite Hle. reflexivity.
    + intros Hm. rewrite (Hmissing Hm). reflexivity.
Qed.

(** *** The metrics endpoint *)

Lemma cache_fresh_when_within_window (w : world) now last res :
  _LAST_EVAL_RESULT w = Some res →
  _LAST_EVAL w = Some last →
  now - last <= 60 →
  cache_stale w now = false.
Proof.
  intros Hres Hlast Hwin. unfold cache_stale. rewrite Hres, Hlast.
  apply Qgtb_false, Hwin.
Qed.

(** A call that finds the cache fresh answers from it and touches
    nothing. *)
Lemma metrics_from_cache args now (w : world) k res :
  arg_k args = inr k →
  cache_stale w now = false →
  _LAST_EVAL_RESULT w = Some res →
  metrics args now w
  = (metrics_response (metrics_data k (arg_strategy args) res), w).
Proof.
  intros Hk Hfresh Hres.
  unfold metrics, RecoApi.metrics, handle, metrics_try, bind, lift, get, ret.
  rewrite Hk, Hfresh, Hres. reflexivity.
Qed.

(** A call answered with status 200 leaves a cached result and its
    time, and is answered from that result. If it found the cache stale,
    the result is what [evaluate_at_k] returned for its own [k] and
    strategy on the engine [get_engine] gave, and the time is its own
    clock reading; if not, it changed nothing. *)
Lemma metrics_success args now (w w1 : world) resp :
  metrics args now w = (resp, w1) →
  status_code resp = 200%Z →
  ∃ k res last,
    arg_k args = inr k ∧
    _LAST_EVAL_RESULT w1 = Some res ∧
    _LAST_EVAL w1 = Some last ∧
    resp = metrics_response (metrics_data k (arg_strategy args) res) ∧
    (cache_stale w now = true →
     last = now ∧
     ∃ eng w0,
       get_engine os RecommendationEngine service_root w = (inr eng, w0) ∧
       fst (evaluate_at_k k (arg_strategy args) (eng, fs w0)) = inr res) ∧
    (cache_stale w now = false → _LAST_EVAL_RESULT w = Some res ∧ w1 = w).
Proof.
  unfold metrics, RecoApi.metrics, handle, metrics_try, bind, lift, get, ret, throw.
  destruct (arg_k args) as [e|k]; [intros [= <- <-]; discriminate|].
  destruct (cache_stale w now) eqn:Hstale.
  - unfold get_engine, on_engine.
    destruct (_ENGINE w) as [eng|].
    + destruct (evaluate_at_k k (arg_strategy args) (eng, fs w))
        as [[e|res] [eng' fs']] eqn:Heval; simpl.
      * intros [= <- <-]; discriminate.
      * intros [= <- <-] _. exists k, res, now.
        repeat split; auto; [|discriminate|discriminate].
        exists eng, w. rewrite Heval. auto.
    + destruct (RecommendationEngine _ (fs w)) as [[e|eng] fs0]; simpl.
      * intros [= <- <-]; discriminate.
      * destruct (evaluate_at_k k (arg_strategy args) (eng, fs0))
          as [[e|res] [eng' fs']] eqn:Heval; simpl.
        -- intros [= <- <-]; discriminate.
        -- intros [= <- <-] _. exists k, res, now.
           repeat split; auto; [|discriminate|discriminate].
           eexists eng, _. split; [reflexivity|]. simpl. rewrite Heval.
           reflexivity.
  - unfold cache_stale in Hstale.
    destruct (_LAST_EVAL_RESULT w) as [res|] eqn:Hres; [|discriminate].
    destruct (_LAST_EVAL w) as [last|] eqn:Hlast; [|discriminate].
    intros [= <- <-] _. exists k, res, last.
    repeat split; auto; discriminate.
Qed.

End Blueprint.

End ApiFacts.

(** ** Worked examples                                                      *)

Module Examples.
Import Py Frame Fixtures.
Local Open Scope Q_scope.

Lemma two_users_wf : wf two_users.
Proof.
  repeat split; simpl.
  - refine (bool_decide_unpack _ _). vm_compute. exact I.
  - refine (bool_decide_unpack _ _). vm_compute. exact I.
  - repeat constructor.
Defined.

Lemma u1_A_in_bounds : -5.0 <= Feedback.stored two_users "u1" "A" <= 5.0.
Proof. split; vm_compute; discriminate. Defined.

(** Seven dislikes in a row leave the value of (u1, A) within bounds. *)
Lemma record_keeps_value_in_bounds_witness :
  wf two_users ∧
  -5.0 <= Feedback.stored
            (Feedback.interactions_df
               (Feedback.record_times mem_os show_entry 7 manager
                  "u1" "A" "dislike" fresh_world)) "u1" "A" <= 5.0.
Proof.
  split; [exact two_users_wf|].
  exact (proj2 (proj2 (RecordFacts.record_keeps_value_in_bounds
                         mem_os show_entry manager "u1" "A" fresh_world
                         two_users_wf u1_A_in_bounds)) 7%nat).
Defined.

(** On a full volume the call raises, and the like is in the matrix. *)
Lemma record_update_independent_of_log_witness :
  fst (Feedback.record full_os show_entry manager "u2" "A" "like" None fresh_world)
  = inl (OSError "No space left on device") ∧
  at_ (Feedback.interactions_df
         (snd (Feedback.record full_os show_entry manager "u2" "A" "like" None
                 fresh_world))) "u2" "A"
  = inr (Feedback.clip (Feedback.stored two_users "u2" "A"
                        + Feedback.default_weight "like")).
Proof.
  exact (proj2 (RecordFacts.record_update_independent_of_log
                  full_os show_entry manager "u2" "A" "like" None fresh_world
                  two_users_wf)
               (OSError "No space left on device") eq_refl).
Defined.

Lemma record_default_deltas_witness :
  at_ (Feedback.interactions_df
         (snd (Feedback.record mem_os show_entry manager "u1" "B" "skip" None
                 fresh_world))) "u1" "B"
  = inr (Feedback.clip (Feedback.stored two_users "u1" "B" + 0.1)).
Proof.
  exact (proj1 (proj2 (proj2 (RecordFacts.record_default_deltas
                                mem_os show_entry manager "u1" "B" fresh_world
                                two_users_wf)))).
Defined.

Lemma record_unknown_action_as_skip_witness :
  at_ (Feedback.interactions_df
         (snd (Feedback.record mem_os show_entry manager "u1" "B" "love" None
                 fresh_world))) "u1" "B"
  = inr (Feedback.clip (Feedback.stored two_users "u1" "B" + 0.1)).
Proof.
  refine (proj1 (RecordFacts.record_unknown_action_as_skip
                   mem_os show_entry manager "u1" "B" "love" fresh_world
                   _ _ _ two_users_wf)); discriminate.
Defined.

(** The recommender fails for u1 and works for u2: the evaluation gives
    no metrics at all. *)
Lemma evaluate_holdout_aborts_on_one_user :
  flaky_recommend two_users "u2" 5 = steady_recommend two_users "u2" 5 ∧
  ¬ ∃ m, fst (Evaluation.evaluate_holdout_at_k flaky_recommend 5 two_users) = inr m.
Proof.
  split; [reflexivity|]. intros [m Hm]. vm_compute in Hm. discriminate.
Qed.

(** The first user is scored, the second makes the recommender fail:
    that failure is what the evaluation raises, also when the third user
    would make the recommender fail in another way. *)
Lemma evaluate_holdout_propagates_user_failure_witness :
  Evaluation.evaluate_holdout_at_k moody_recommend 5 three_users
  = (inl (RuntimeError "model unavailable"), three_users) ∧
  Evaluation.evaluate_holdout_at_k moody_recommend_without_u3 5 three_users
  = (inl (RuntimeError "model unavailable"), three_users).
Proof.
  pose proof (EvaluationFacts.evaluate_holdout_propagates_user_failure
                moody_recommend 5 three_users [("u1", [1; 0])] "u2" [0; 2]
                [("u3", [3; 0])] "B" []
                (mkDF ["u1"; "u2"; "u3"] ["A"; "B"] [[1; 0]; [0; 0]; [3; 0]])
                (RuntimeError "model unavailable")) as Hfails.
  destruct Hfails as [_ [Hsame Hother]].
  - reflexivity.
  - intros it acc Hin. apply list_elem_of_singleton in Hin as ->. reflexivity.
  - reflexivity.
  - reflexivity.
  - reflexivity.
  - split; [exact Hsame|]. apply Hother.
    intros d v [->|Hin]; [reflexivity|].
    apply list_elem_of_singleton in Hin as ->. reflexivity.
Defined.

(** The held-out item twice in the top two: the loop counts both
    occurrences and the average precision is 2, which is the reciprocal
    of neither position. *)
Lemma average_precision_counts_repeated_item :
  Evaluation.average_precision_at_k ["A"] ["A"; "A"] 2 == 2 ∧
  ¬ Evaluation.average_precision_at_k ["A"] ["A"; "A"] 2 == 1 / 1 ∧
  ¬ Evaluation.average_precision_at_k ["A"] ["A"; "A"] 2 == 1 / 2.
Proof.
  split; [vm_compute; reflexivity|].
  split; intros H; vm_compute in H; discriminate.
Qed.

(** The held-out item in third place, after another id that repeats:
    average precision 1/3. With the same list cut after two ids: 0. *)
Lemma average_precision_single_holdout_witness :
  Evaluation.average_precision_at_k ["A"] ["B"; "B"; "A"] 5 == 1 / 3 ∧
  Evaluation.average_precision_at_k ["A"] ["B"; "B"; "A"] 2 == 0.
Proof.
  split.
  - refine (proj1 (AveragePrecisionFacts.average_precision_single_holdout
                     "A" ["B"; "B"; "A"] 5) 2%nat _ _ _).
    + vm_compute. lia.
    + reflexivity.
    + intros [|[|[|j']]] _ Hj'; try discriminate Hj'. reflexivity.
  - refine (proj2 (AveragePrecisionFacts.average_precision_single_holdout
                     "A" ["B"; "B"; "A"] 2) _).
    intros [|[|j]] Hlt; [discriminate|discriminate|].
    vm_compute in Hlt. lia.
Defined.

(** Item C has no interactions and item B is not in the catalog. *)
Lemma load_reco_datasets_columns_are_catalog_witness :
  Preprocessing.load_reco_datasets read_catalog read_two_users "data"
  = inr (Preprocessing.mkItems ["A"; "C"] (Some [Some "Walk"; Some "Calm music"])
           [Some "Item"; Some "Item"] [["outdoor"; "calm"]; []],
         mkDF ["u1"; "u2"] ["A"; "C"] [[1; 0]; [0; 0]]) ∧
  columns (mkDF ["u1"; "u2"] ["A"; "C"] [[1; 0]; [0; 0]]) = ["A"; "C"].
Proof.
  assert (Preprocessing.load_reco_datasets read_catalog read_two_users "data"
          = inr (Preprocessing.mkItems ["A"; "C"]
                   (Some [Some "Walk"; Some "Calm music"])
                   [Some "Item"; Some "Item"] [["outdoor"; "calm"]; []],
                 mkDF ["u1"; "u2"] ["A"; "C"] [[1; 0]; [0; 0]])) as Hload
      by (vm_compute; reflexivity).
  split; [exact Hload|].
  exact (proj1 (PreprocessingFacts.load_reco_datasets_columns_are_catalog
                  read_catalog read_two_users "data" _ _ Hload)).
Defined.

(** A request with no user id and a null rating is answered with the
    500 of the generic handler, not with the 400 of the validation. *)
Lemma feedback_missing_user_answers_500 :
  RecoApi.get_method (RecoApi.request_data body_without_user) "user_id" RecoApi.JNull
  = inr RecoApi.JNull ∧
  toy_feedback_endpoint (inr body_without_user) "2024-01-01T00:00:00" idle_api
  = (RecoApi.error_response
       "float() argument must be a string or a real number, not 'NoneType'" 500,
     idle_api) ∧
  RecoApi.status_code
    (fst (toy_feedback_endpoint (inr body_without_user) "2024-01-01T00:00:00"
            idle_api)) ≠ 400%Z.
Proof. repeat split. vm_compute. discriminate. Qed.

Lemma feedback_rejects_invalid_request_witness :
  toy_feedback_endpoint (inr body_negative_rating) "2024-01-01T00:00:00" idle_api
  = (RecoApi.error_response "rating must be > 0" 400, idle_api) ∧
  toy_feedback_endpoint (inr body_huge_negative_rating) "2024-01-01T00:00:00"
    idle_api
  = (RecoApi.error_response "int too large to convert to float" 500, idle_api) ∧
  snd (toy_feedback_endpoint (inr body_without_user) "2024-01-01T00:00:00"
         idle_api) = idle_api.
Proof.
  pose proof (ApiFacts.feedback_rejects_invalid_request
                mem_os new_toy_engine toy_feedback float_of_digits show_json
                "/srv" body_negative_rating "2024-01-01T00:00:00" idle_api)
    as Hnegative.
  pose proof (ApiFacts.feedback_rejects_invalid_request
                mem_os new_toy_engine toy_feedback float_of_digits show_json
                "/srv" body_huge_negative_rating "2024-01-01T00:00:00" idle_api)
    as Hhuge.
  pose proof (ApiFacts.feedback_rejects_invalid_request
                mem_os new_toy_engine toy_feedback float_of_digits show_json
                "/srv" body_without_user "2024-01-01T00:00:00" idle_api)
    as Hanonymous.
  cbv zeta in Hnegative, Hhuge, Hanonymous.
  destruct Hnegative as [Hnegative _].
  destruct Hhuge as [_ [Hhuge _]].
  destruct Hanonymous as [_ [_ Hanonymous]].
  split; [|split].
  - refine (proj2 (Hnegative (-1) eq_refl) _ _ _).
    + exists (RecoApi.JString "u1"). split; reflexivity.
    + exists (RecoApi.JString "A"). split; reflexivity.
    + vm_compute. discriminate.
  - refine (Hhuge (Py.OverflowError "int too large to convert to float") _ _ _).
    + vm_compute. reflexivity.
    + exists (RecoApi.JString "u1"). split; reflexivity.
    + exists (RecoApi.JString "A"). split; reflexivity.
  - apply Hanonymous. left. intros v [= <-]. reflexivity.
Defined.

(** C5. Both ids are there and the rating is the integer -10^400, which
    is not positive: [float()] raises on it and the answer is the 500 of
    the generic handler, not the 400 validation error. *)
Lemma feedback_huge_negative_rating_answers_500 :
  RecoApi.get_method (RecoApi.request_data body_huge_negative_rating) "rating"
    (RecoApi.JNumber 0)
  = inr (RecoApi.JNumber (inject_Z (- 10 ^ 400))) ∧
  inject_Z (- 10 ^ 400) <= 0 ∧
  toy_feedback_endpoint (inr body_huge_negative_rating) "2024-01-01T00:00:00"
    idle_api
  = (RecoApi.error_response "int too large to convert to float" 500, idle_api) ∧
  RecoApi.status_code
    (fst (toy_feedback_endpoint (inr body_huge_negative_rating)
            "2024-01-01T00:00:00" idle_api)) ≠ 400%Z.
Proof.
  split; [reflexivity|].
  split; [vm_compute; discriminate|].
  split; [vm_compute; reflexivity|vm_compute; discriminate].
Qed.

End Examples.

(** ** More about the ranking metrics                                       *)

Module RankingMetricsFacts.
Import Py Frame Evaluation FrameFacts FeedbackFacts.
Local Open Scope Q_scope.

Lemma mem_elem p s : mem p s = true ↔ p ∈ s.
Proof.
  induction s as [|x rest IH]; simpl.
  - split; [discriminate|]. intros H. inversion H.
  - destruct (String.eqb_spec p x) as [->|Hne].
    + split; [intros _; apply list_elem_of_here|reflexivity].
    + rewrite IH. split; [apply list_elem_of_further|].
      intros H. apply elem_of_cons in H as [?|?]; [contradiction|assumption].
Qed.

Lemma to_set_elem x l : x ∈ to_set l ↔ x ∈ l.
Proof.
  induction l as [|y rest IH]; simpl; [reflexivity|].
  destruct (mem y rest) eqn:Hy.
  - rewrite IH. apply mem_elem in Hy. split; [apply list_elem_of_further|].
    intros H. apply elem_of_cons in H as [->|?]; assumption.
  - rewrite !elem_of_cons, IH. reflexivity.
Qed.

Lemma to_set_NoDup l : NoDup (to_set l).
Proof.
  induction l as [|y rest IH]; simpl; [constructor|].
  destruct (mem y rest) eqn:Hy; [exact IH|].
  constructor; [|exact IH].
  rewrite to_set_elem, <- mem_elem, Hy. discriminate.
Qed.

Lemma filter_elem {A} (f : A → bool) (l : list A) x :
  x ∈ List.filter f l ↔ x ∈ l ∧ f x = true.
Proof. rewrite !list_elem_of_In. apply List.filter_In. Qed.

Lemma filter_NoDup {A} (f : A → bool) (l : list A) :
  NoDup l → NoDup (List.filter f l).
Proof.
  induction 1 as [|x rest Hx Hnd IH]; simpl; [constructor|].
  destruct (f x); [|exact IH].
  constructor; [|exact IH]. rewrite filter_elem. tauto.
Qed.

(** Distinct values that all occur in a list are no more than its
    length. *)
Lemma filter_mem_length (candidates within : list string) :
  NoDup candidates →
  (length (List.filter (fun a => mem a within) candidates) <= length within)%nat.
Proof.
  intros Hnd. apply submseteq_length, NoDup_submseteq.
  - apply filter_NoDup, Hnd.
  - intros x Hx. apply filter_elem in Hx as [_ Hx]. apply mem_elem, Hx.
Qed.

Lemma filter_length_le {A} (f : A → bool) (l : list A) :
  (length (List.filter f l) <= length l)%nat.
Proof.
  induction l as [|x rest IH]; simpl; [lia|].
  destruct (f x); simpl; lia.
Qed.

Lemma first_k_length {A} (k : Z) (l : list A) :
  (1 <= k)%Z → (len (first_k k l) <= k)%Z.
Proof.
  intros Hk. unfold len, first_k. rewrite length_take. lia.
Qed.

Lemma Qdiv_unit_interval (a b : Z) :
  (0 <= a)%Z → (a <= b)%Z → (0 < b)%Z →
  0 <= inject_Z a / inject_Z b <= 1.
Proof.
  intros Ha Hab Hb.
  assert (0 < inject_Z b) as Hb' by (unfold Qlt; simpl; lia).
  split.
  - apply Qle_shift_div_l; [exact Hb'|]. rewrite Qmult_0_l.
    unfold Qle. simpl. lia.
  - apply Qle_shift_div_r; [exact Hb'|]. rewrite Qmult_1_l.
    unfold Qle. simpl. lia.
Qed.

Lemma f1_unit_interval p r :
  0 <= p <= 1 → 0 <= r <= 1 →
  0 <= (if Qgtb (p + r) 0 then 2 * p * r / (p + r) else 0.0) <= 1.
Proof.
  intros Hp Hr. destruct (Qgtb (p + r) 0) eqn:Hpos; [|lra].
  apply Qgtb_true in Hpos. split.
  - apply Qle_shift_div_l; [exact Hpos|]. nra.
  - apply Qle_shift_div_r; [exact Hpos|]. nra.
Qed.

(** X1. Whatever the relevant items, the predictions and [k], the
    precision, the recall and the F1 score that [precision_recall_at_k]
    returns all lie between 0 and 1. *)
Theorem precision_recall_within_unit_interval actual predicted k :
  0 <= precision (precision_recall_at_k actual predicted k) <= 1 ∧
  0 <= recall (precision_recall_at_k actual predicted k) <= 1 ∧
  0 <= f1 (precision_recall_at_k actual predicted k) <= 1.
Proof.
  unfold precision_recall_at_k. cbv zeta.
  pose proof (to_set_NoDup actual) as Hnd.
  destruct (to_set actual) as [|a rest] eqn:Hset.
  { simpl. repeat split; lra. }
  set (actual_set := a :: rest) in *.
  set (pred_k := first_k (Z.max 1 k) predicted).
  set (hits := len (List.filter (fun x => mem x pred_k) actual_set)).
  assert (0 <= hits)%Z as Hhits0 by (unfold hits, len; lia).
  assert (hits <= Z.max 1 k)%Z as Hhits_k.
  { pose proof (filter_mem_length actual_set pred_k Hnd).
    pose proof (first_k_length (Z.max 1 k) predicted ltac:(lia)).
    unfold hits, len in *. fold pred_k in H0. lia. }
  assert (hits <= len actual_set)%Z as Hhits_n.
  { pose proof (filter_length_le (fun x => mem x pred_k) actual_set).
    unfold hits, len. lia. }
  assert (0 < len actual_set)%Z as Hn by (unfold len, actual_set; simpl; lia).
  pose proof (Qdiv_unit_interval hits (Z.max 1 k) Hhits0 Hhits_k ltac:(lia)) as Hp.
  pose proof (Qdiv_unit_interval hits (len actual_set) Hhits0 Hhits_n Hn) as Hr.
  simpl precision. simpl recall. simpl f1.
  split; [exact Hp|]. split; [exact Hr|].
  apply f1_unit_interval; assumption.
Qed.

(** X2. With one held-out item precision and recall are decided by
    whether the item is among the first max(1, k) predictions: if it is,
    the precision is 1/max(1, k) and the recall is 1; if it is not, both
    are 0, and so is F1. *)
Theorem precision_recall_single_holdout t predicted k :
  let scores := precision_recall_at_k [t] predicted k in
  if mem t (first_k (Z.max 1 k) predicted)
  then precision scores == 1 / inject_Z (Z.max 1 k) ∧
       recall scores == 1
  else precision scores == 0 ∧ recall scores == 0 ∧ f1 scores == 0.
Proof.
  unfold precision_recall_at_k. cbv zeta. change (to_set [t]) with [t].
  cbv iota. cbv beta.
  assert (0 < inject_Z (Z.max 1 k)) as Hk by (unfold Qlt; simpl; lia).
  simpl List.filter.
  destruct (mem t (first_k (Z.max 1 k) predicted)); simpl precision;
    simpl recall; simpl f1.
  - change (len [t]) with 1%Z. split; reflexivity.
  - change (len []) with 0%Z.
    repeat split; try reflexivity; unfold Qdiv; apply Qmult_0_l.
Qed.

(** *** Average precision *)

Lemma ap_loop_bounds actual_set pred i hits score :
  (0 <= hits < i)%Z →
  score <= ap_loop actual_set pred i hits score
  <= score + inject_Z (len (List.filter (fun p => mem p actual_set) pred)).
Proof.
  revert i hits score. induction pred as [|p rest IH]; intros i hits score Hi.
  - simpl. change (inject_Z (len [])) with 0. lra.
  - simpl. destruct (mem p actual_set).
    + specialize (IH (i + 1)%Z (hits + 1)%Z
                     (score + inject_Z (hits + 1) / inject_Z i) ltac:(lia)).
      pose proof (Qdiv_unit_interval (hits + 1) i ltac:(lia) ltac:(lia) ltac:(lia))
        as Hterm.
      assert (inject_Z (len (p :: List.filter (fun x => mem x actual_set) rest))
              == 1 + inject_Z (len (List.filter (fun x => mem x actual_set) rest)))
        as ->.
      { unfold len. simpl length. rewrite Nat2Z.inj_succ, <- Z.add_1_l.
        rewrite inject_Z_plus. reflexivity. }
      lra.
    + apply IH. lia.
Qed.

(** X3. For predictions whose first max(1, k) ids do not repeat, the
    average precision lies between 0 and 1, whatever the relevant items. *)
Theorem average_precision_within_unit_interval actual predicted k :
  NoDup (first_k (Z.max 1 k) predicted) →
  0 <= average_precision_at_k actual predicted k <= 1.
Proof.
  intros Hnd. unfold average_precision_at_k. cbv zeta.
  set (pred_k := first_k (Z.max 1 k) predicted) in *.
  set (actual_set := to_set actual).
  destruct (Z.min (Z.max 1 k) (len actual_set) >? 0)%Z eqn:Hdenom; [|lra].
  apply Z.gtb_lt in Hdenom.
  pose proof (ap_loop_bounds actual_set pred_k 1 0 0.0 ltac:(lia)) as [Hlo Hhi].
  set (score := ap_loop actual_set pred_k 1 0 0.0) in *.
  set (count := len (List.filter (fun p => mem p actual_set) pred_k)) in *.
  assert (count <= Z.min (Z.max 1 k) (len actual_set))%Z as Hcount.
  { pose proof (filter_length_le (fun p => mem p actual_set) pred_k).
    pose proof (first_k_length (Z.max 1 k) predicted ltac:(lia)).
    pose proof (filter_mem_length pred_k actual_set Hnd).
    unfold count, len in *. fold pred_k in H0. lia. }
  assert (0 < inject_Z (Z.min (Z.max 1 k) (len actual_set))) as Hpos
      by (unfold Qlt; simpl; lia).
  assert (inject_Z count <= inject_Z (Z.min (Z.max 1 k) (len actual_set)))
    as Hcount' by (unfold Qle; simpl; lia).
  split.
  - apply Qle_shift_div_l; [exact Hpos|]. lra.
  - apply Qle_shift_div_r; [exact Hpos|]. lra.
Qed.

Lemma ap_loop_no_hit actual_set pred i hits score :
  (∀ p, p ∈ pred → p ∉ actual_set) →
  ap_loop actual_set pred i hits score = score.
Proof.
  revert i hits score. induction pred as [|p rest IH]; intros i hits score Hnone;
    [reflexivity|].
  simpl. destruct (mem p actual_set) eqn:Hp.
  - apply mem_elem in Hp. destruct (Hnone p); [apply list_elem_of_here|exact Hp].
  - apply IH. intros q Hq. apply Hnone, list_elem_of_further, Hq.
Qed.

(** X4. The average precision is 0 when none of the first max(1, k)
    predictions is a relevant item; this covers an empty list of relevant
    items and an empty list of predictions. *)
Theorem average_precision_zero_without_hit actual predicted k :
  (∀ p, p ∈ first_k (Z.max 1 k) predicted → p ∉ actual) →
  average_precision_at_k actual predicted k == 0.
Proof.
  intros Hnone. unfold average_precision_at_k. cbv zeta.
  rewrite ap_loop_no_hit.
  - destruct (_ >? 0)%Z; [|reflexivity]. unfold Qdiv. apply Qmult_0_l.
  - intros p Hp. rewrite to_set_elem. apply Hnone, Hp.
Qed.

(** X5. Both metric functions look at the first max(1, k) predictions
    only: cutting the list there first changes nothing, and any [k] below
    1 gives the results of [k = 1]. *)
Theorem ranking_metrics_use_top_k_only actual predicted k :
  precision_recall_at_k actual (first_k (Z.max 1 k) predicted) k
  = precision_recall_at_k actual predicted k ∧
  average_precision_at_k actual (first_k (Z.max 1 k) predicted) k
  = average_precision_at_k actual predicted k ∧
  ((k <= 1)%Z →
   precision_recall_at_k actual predicted k
   = precision_recall_at_k actual predicted 1 ∧
   average_precision_at_k actual predicted k
   = average_precision_at_k actual predicted 1).
Proof.
  assert (first_k (Z.max 1 k) (first_k (Z.max 1 k) predicted)
          = first_k (Z.max 1 k) predicted) as Hcut
      by (unfold first_k; apply take_idemp).
  split; [|split].
  - unfold precision_recall_at_k. cbv zeta. rewrite Hcut. reflexivity.
  - unfold average_precision_at_k. cbv zeta. rewrite Hcut. reflexivity.
  - intros Hk. unfold precision_recall_at_k, average_precision_at_k. cbv zeta.
    replace (Z.max 1 k) with (Z.max 1 1) by lia. split; reflexivity.
Qed.

End RankingMetricsFacts.

(** ** More about the holdout evaluation                                    *)

Module HoldoutFacts.
Import Py Frame Evaluation FrameFacts EvaluationFacts.
Local Open Scope Q_scope.

Lemma positive_labels_columns cols row t :
  t ∈ positive_labels cols row → t ∈ cols.
Proof.
  revert row. induction cols as [|c cols' IH]; intros [|v row'] Hin; simpl in Hin;
    try (inversion Hin; fail).
  destruct (Qgtb v 0).
  - apply elem_of_cons in Hin as [->|Hin]; [apply list_elem_of_here|].
    apply list_elem_of_further, (IH row'), Hin.
  - apply list_elem_of_further, (IH row'), Hin.
Qed.

Lemma iterrows_index df u row : (u, row) ∈ iterrows df → u ∈ index df.
Proof.
  unfold iterrows. intros Hin. apply list_elem_of_lookup in Hin as [n Hn].
  apply lookup_zip_with_Some in Hn as (u' & row' & [= <- <-] & Hu & _).
  eapply list_elem_of_lookup_2, Hu.
Qed.

(** A loop whose body returns on every element, giving the world back,
    returns. *)
Lemma for_each_returns {W A B} (body : B → A → M W B) (w : W) l :
  (∀ acc a, a ∈ l → ∃ acc', body acc a w = (inr acc', w)) →
  ∀ acc, ∃ acc', for_each body acc l w = (inr acc', w).
Proof.
  induction l as [|a rest IH]; intros Hbody acc; simpl.
  - exists acc. reflexivity.
  - unfold bind.
    destruct (Hbody acc a (list_elem_of_here _ _)) as [acc1 ->].
    apply IH. intros acc2 b Hb. apply Hbody, list_elem_of_further, Hb.
Qed.

(** A loop whose body changes nothing on any element returns what it
    started with. *)
Lemma for_each_skips {W A B} (body : B → A → M W B) (w : W) l acc :
  (∀ a, a ∈ l → body acc a w = (inr acc, w)) →
  for_each body acc l w = (inr acc, w).
Proof.
  induction l as [|a rest IH]; intros Hbody; simpl; [reflexivity|].
  unfold bind. rewrite (Hbody a (list_elem_of_here _ _)).
  apply IH. intros b Hb. apply Hbody, list_elem_of_further, Hb.
Qed.

Section Holdout.
Variable recommend : DataFrame → string → Z → result (list recommendation).

Local Abbreviation holdout_user := (holdout_user recommend).
Local Abbreviation evaluate_holdout_at_k := (evaluate_holdout_at_k recommend).

(** X6. When no row of the frame has a positive cell (in particular when
    the frame has no rows), the evaluation returns four zeros, leaves the
    frame alone, and the recommender has no part in the result. *)
Theorem evaluate_holdout_without_positive_rows k df :
  (∀ u row, (u, row) ∈ iterrows df → positive_labels (columns df) row = []) →
  evaluate_holdout_at_k k df
  = (inr (mkMetrics (0 # 1000000) (0 # 1000000) (0 # 1000000) (0 # 1000000)), df).
Proof.
  intros Hnone.
  unfold evaluate_holdout_at_k, Evaluation.evaluate_holdout_at_k, bind, get.
  rewrite (for_each_skips (holdout_user k) df (iterrows df) (mkSamples [] [] [] [])).
  - reflexivity.
  - intros [u row] Hin. apply holdout_user_skips, (Hnone u row Hin).
Qed.

(** X7. On a well-formed frame, if the recommender returns for every user
    a list of dicts that all have an "id", the evaluation returns metrics
    (it raises nothing of its own) and leaves the frame as it was. *)
Theorem evaluate_holdout_returns_when_recommender_does k df :
  wf df →
  (∀ df' u, ∃ recs pred, recommend df' u k = inr recs ∧ ids_of recs = inr pred) →
  ∃ m, evaluate_holdout_at_k k df = (inr m, df).
Proof.
  intros Hwf Hrec.
  unfold evaluate_holdout_at_k, Evaluation.evaluate_holdout_at_k, bind, get.
  destruct (for_each_returns (holdout_user k) df (iterrows df)) with
    (acc := mkSamples [] [] [] []) as [acc ->]; [|eauto].
  intros acc [u row] Hin.
  destruct (positive_labels (columns df) row) as [|t rest] eqn:Hpos.
  { exists acc. apply holdout_user_skips, Hpos. }
  assert (t ∈ columns df) as Ht.
  { apply (positive_labels_columns _ row). rewrite Hpos. apply list_elem_of_here. }
  destruct (at_defined df u t Hwf (iterrows_index _ _ _ Hin) Ht) as [original Hat].
  destruct (set_at_defined df u t original 0 Hat) as [df0 Hset].
  rewrite (holdout_user_masked recommend k acc u row df t rest original df0
             Hpos Hat Hset).
  destruct (Hrec df0 u) as (recs & pred & Hrecs & Hids).
  unfold score_user, bind, get, lift, ret. rewrite Hrecs, Hids. simpl. eauto.
Qed.

End Holdout.

End HoldoutFacts.

(** ** More about [record]                                                  *)

Module RecordMoreFacts.
Import Py Frame Feedback FrameFacts FeedbackFacts RecordFacts.
Local Open Scope Q_scope.

(** An assignment changes no other cell. *)
Lemma set_at_other df u i v df' u' i' :
  set_at df u i v = inr df' →
  (u', i') ≠ (u, i) →
  at_ df' u' i' = at_ df u' i'.
Proof.
  unfold set_at, at_.
  destruct (get_loc u (index df)) as [|r] eqn:Hr; [discriminate|].
  destruct (get_loc i (columns df)) as [|c] eqn:Hc; [discriminate|]. simpl.
  destruct (values df !! r) as [row|] eqn:Hrow; [|discriminate].
  case_decide as Hlt; [|discriminate]. intros [= <-] Hne. simpl.
  destruct (get_loc u' (index df)) as [|r'] eqn:Hr'; [reflexivity|].
  destruct (get_loc i' (columns df)) as [|c'] eqn:Hc'; [reflexivity|]. simpl.
  destruct (decide (r' = r)) as [->|Hrr].
  - rewrite list_lookup_insert_eq by (eapply lookup_lt_Some, Hrow).
    rewrite Hrow.
    assert (c' ≠ c) as Hcc.
    { intros ->. apply Hne.
      apply get_loc_lookup in Hr, Hr', Hc, Hc'. congruence. }
    rewrite list_lookup_insert_ne by congruence. reflexivity.
  - rewrite list_lookup_insert_ne by congruence. reflexivity.
Qed.

Lemma append_row_keeps df u x u' i' v :
  wf df → at_ df u' i' = inr v → at_ (append_row df u x) u' i' = inr v.
Proof.
  intros (_ & _ & Hlen & _). unfold at_, append_row. simpl.
  destruct (get_loc u' (index df)) as [|r] eqn:Hr; [discriminate|].
  rewrite (get_loc_app_l _ _ _ _ Hr).
  destruct (get_loc i' (columns df)) as [|c]; [discriminate|]. simpl.
  rewrite lookup_app_l by (rewrite Hlen; eapply get_loc_lt, Hr).
  intros H. exact H.
Qed.

Lemma append_column_keeps df i x u' i' v :
  at_ df u' i' = inr v → at_ (append_column df i x) u' i' = inr v.
Proof.
  unfold at_, append_column. simpl.
  destruct (get_loc u' (index df)) as [|r]; [discriminate|].
  destruct (get_loc i' (columns df)) as [|c] eqn:Hc; [discriminate|].
  rewrite (get_loc_app_l _ _ _ _ Hc). simpl.
  rewrite list_lookup_fmap.
  destruct (values df !! r) as [row|]; [|discriminate]. simpl.
  destruct (row !! c) as [w|] eqn:Hw; [|discriminate].
  rewrite (lookup_app_l_Some _ _ _ _ Hw). intros H. exact H.
Qed.

Lemma ensure_keeps df u i u' i' v :
  wf df → at_ df u' i' = inr v →
  at_ (ensure_column (ensure_row df u) i) u' i' = inr v.
Proof.
  intros Hwf Hat.
  assert (at_ (ensure_row df u) u' i' = inr v) as Hrow.
  { unfold ensure_row. destruct (negb _); [|exact Hat].
    apply append_row_keeps; assumption. }
  unfold ensure_column. destruct (negb _); [|exact Hrow].
  apply append_column_keeps, Hrow.
Qed.

Section Manager.
Context {FS : Type} (os : Platform FS) (dumps : log_entry → string).

Local Abbreviation record := (record os dumps).
Local Abbreviation record_times := (record_times os dumps).
Local Abbreviation world := (@world FS).

(** X8. A call of [record] for the pair (u, i) changes no other cell of
    the matrix: every cell that existed before holds the same value
    after, whether the call returned or raised. *)
Theorem record_leaves_other_cells self u i a wt (w : world) u' i' v :
  wf (interactions_df w) →
  (u', i') ≠ (u, i) →
  at_ (interactions_df w) u' i' = inr v →
  at_ (interactions_df (snd (record self u i a wt w))) u' i' = inr v.
Proof.
  intros Hwf Hne Hat.
  destruct (record_run os dumps self u i a wt w Hwf) as (df' & Hset & ->).
  simpl. rewrite (set_at_other _ _ _ _ _ _ _ Hset Hne).
  apply ensure_keeps; assumption.
Qed.

(** X9. [record] never removes or reorders labels: a user or an item it
    has not seen is appended after the existing ones, a known one changes
    nothing; and the row of a new user holds 0.0 under every column other
    than the item's. *)
Theorem record_appends_new_labels self u i a wt (w : world) :
  wf (interactions_df w) →
  let df := interactions_df w in
  let df' := interactions_df (snd (record self u i a wt w)) in
  index df' = (if contains u (index df) then index df else index df ++ [u]) ∧
  columns df' = (if contains i (columns df) then columns df else columns df ++ [i]) ∧
  (u ∉ index df → ∀ c, c ∈ columns df → c ≠ i → at_ df' u c = inr 0.0).
Proof.
  intros Hwf df df'. subst df df'.
  destruct (record_run os dumps self u i a wt w Hwf) as (df1 & Hset & ->).
  simpl. destruct (set_at_labels _ _ _ _ _ Hset) as [-> ->].
  set (df := interactions_df w) in *.
  split; [|split].
  - unfold ensure_column, ensure_row.
    destruct (contains u (index df)); simpl;
      destruct (negb (contains i _)); reflexivity.
  - unfold ensure_column, ensure_row.
    destruct (contains u (index df)); simpl;
      destruct (contains i (columns df)); reflexivity.
  - intros Hu c Hc Hci.
    rewrite (set_at_other _ _ _ _ _ u c Hset) by congruence.
    unfold ensure_row. rewrite (proj2 (contains_false _ _) Hu). simpl.
    unfold ensure_column. destruct (negb _).
    + apply append_column_keeps, at_append_row_new; assumption.
    + apply at_append_row_new; assumption.
Qed.

Lemma record_times_stored_step n self u i a (w : world) :
  record_times (S n) self u i a w
  = record_times n self u i a (snd (record self u i a None w)).
Proof. reflexivity. Qed.

(** Likes from a value that is at least the integer [z] climb at least as
    fast as they would from [z], one per call up to 5. *)
Lemma record_likes_climb n self u i (w : world) z :
  wf (interactions_df w) →
  inject_Z z <= stored (interactions_df w) u i <= 5.0 →
  inject_Z (Z.min 5 (z + Z.of_nat n))
  <= stored (interactions_df (record_times n self u i "like" w)) u i.
Proof.
  revert w z. induction n as [|n IH]; intros w z Hwf [Hlow Hhigh].
  - change (record_times 0 self u i "like" w) with w.
    rewrite Z.add_0_r. eapply Qle_trans; [|exact Hlow].
    rewrite <- Zle_Qle. lia.
  - rewrite record_times_stored_step.
    eapply Qle_trans;
      [|apply (IH (snd (record self u i "like" None w)) (Z.min 5 (z + 1)))].
    + rewrite <- Zle_Qle. lia.
    + apply record_wf, Hwf.
    + rewrite record_stored by exact Hwf. rewrite default_weight_like.
      split; [|apply clip_range].
      set (old := stored (interactions_df w) u i) in *.
      assert (inject_Z (Z.min 5 (z + 1)) <= 5.0) as H5
          by (apply (Qle_trans _ (inject_Z 5));
              [rewrite <- Zle_Qle; lia|vm_compute; discriminate]).
      assert (inject_Z (Z.min 5 (z + 1)) <= inject_Z z + 1) as Hz.
      { change 1 with (inject_Z 1). rewrite <- inject_Z_plus, <- Zle_Qle. lia. }
      destruct (Qlt_le_dec 5.0 (old + 1.0)) as [Hgt|Hle].
      * rewrite (clip_above _ Hgt). exact H5.
      * destruct (Qlt_le_dec (old + 1.0) (-5.0)) as [Hlt|Hge].
        -- rewrite (clip_below _ Hlt). lra.
        -- rewrite clip_inside by lra. lra.
Qed.

(** Dislikes from a value that is at most the integer [z] fall at least
    as fast as they would from [z], one per call down to -5. *)
Lemma record_dislikes_fall n self u i (w : world) z :
  wf (interactions_df w) →
  -5.0 <= stored (interactions_df w) u i <= inject_Z z →
  stored (interactions_df (record_times n self u i "dislike" w)) u i
  <= inject_Z (Z.max (-5) (z - Z.of_nat n)).
Proof.
  revert w z. induction n as [|n IH]; intros w z Hwf [Hlow Hhigh].
  - change (record_times 0 self u i "dislike" w) with w.
    rewrite Z.sub_0_r. eapply Qle_trans; [exact Hhigh|].
    rewrite <- Zle_Qle. lia.
  - rewrite record_times_stored_step.
    eapply Qle_trans;
      [apply (IH (snd (record self u i "dislike" None w)) (Z.max (-5) (z - 1)))|].
    + apply record_wf, Hwf.
    + rewrite record_stored by exact Hwf. rewrite default_weight_dislike.
      split; [apply clip_range|].
      set (old := stored (interactions_df w) u i) in *.
      assert (-5.0 <= inject_Z (Z.max (-5) (z - 1))) as H5
          by (apply (Qle_trans _ (inject_Z (-5)));
              [vm_compute; discriminate|rewrite <- Zle_Qle; lia]).
      assert (inject_Z z - 1 <= inject_Z (Z.max (-5) (z - 1))) as Hz.
      { change 1 with (inject_Z 1). unfold Qminus.
        rewrite <- inject_Z_opp, <- inject_Z_plus, <- Zle_Qle. lia. }
      destruct (Qlt_le_dec (old + -1.0) (-5.0)) as [Hlt|Hge].
      * rewrite (clip_below _ Hlt). exact H5.
      * destruct (Qlt_le_dec 5.0 (old + -1.0)) as [Hgt|Hle].
        -- rewrite (clip_above _ Hgt). lra.
        -- rewrite clip_inside by lra. lra.
    + rewrite <- Zle_Qle. lia.
Qed.

(** X10. Starting from a value in [-5.0, 5.0], [n] successive likes leave
    at least min(5, n - 5) in the cell and [n] successive dislikes at most
    max(-5, 5 - n); so ten or more likes in a row leave exactly 5.0, and
    ten or more dislikes exactly -5.0, wherever the value started. *)
Theorem record_repeated_saturates n self u i (w : world) :
  wf (interactions_df w) →
  -5.0 <= stored (interactions_df w) u i <= 5.0 →
  let liked := stored (interactions_df (record_times n self u i "like" w)) u i in
  let disliked :=
    stored (interactions_df (record_times n self u i "dislike" w)) u i in
  inject_Z (Z.min 5 (Z.of_nat n - 5)) <= liked <= 5.0 ∧
  -5.0 <= disliked <= inject_Z (Z.max (-5) (5 - Z.of_nat n)) ∧
  ((10 <= n)%nat → liked == 5.0 ∧ disliked == -5.0).
Proof.
  intros Hwf Hrange liked disliked.
  pose proof (record_times_range os dumps n self u i "like" w Hwf Hrange)
    as [_ Hliked].
  pose proof (record_times_range os dumps n self u i "dislike" w Hwf Hrange)
    as [Hdisliked _].
  pose proof (record_likes_climb n self u i w (-5) Hwf) as Hclimb.
  pose proof (record_dislikes_fall n self u i w 5 Hwf) as Hfall.
  fold liked in Hliked, Hclimb. fold disliked in Hdisliked, Hfall.
  assert (inject_Z (Z.min 5 (Z.of_nat n - 5)) <= liked) as Hlow.
  { replace (Z.of_nat n - 5)%Z with (-5 + Z.of_nat n)%Z by lia.
    apply Hclimb. split; [|apply Hrange].
    eapply Qle_trans; [|apply Hrange]. vm_compute. discriminate. }
  assert (disliked <= inject_Z (Z.max (-5) (5 - Z.of_nat n))) as Hhigh.
  { apply Hfall. split; [apply Hrange|].
    eapply Qle_trans; [apply Hrange|]. vm_compute. discriminate. }
  split; [split; assumption|]. split; [split; assumption|].
  intros Hten.
  replace (Z.min 5 (Z.of_nat n - 5)) with 5%Z in Hlow by lia.
  replace (Z.max (-5) (5 - Z.of_nat n)) with (-5)%Z in Hhigh by lia.
  assert (inject_Z 5 == 5.0) as H5 by reflexivity.
  assert (inject_Z (-5) == -5.0) as Hm5 by reflexivity.
  split; lra.
Qed.

End Manager.

End RecordMoreFacts.

(** ** More about loading the datasets                                      *)

Module LoaderMoreFacts.
Import Py Frame Preprocessing FrameFacts PreprocessingFacts.

(** *** Tags *)

Lemma lstrip_starts_clean s : starts_clean (lstrip s).
Proof.
  induction s as [|c rest IH]; simpl; [exact I|].
  destruct (is_space c) eqn:Hc; [exact IH|exact Hc].
Qed.

Lemma lstrip_clean_id s : starts_clean s → lstrip s = s.
Proof. destruct s as [|c rest]; simpl; [reflexivity|]. intros ->. reflexivity. Qed.

Lemma rstrip_starts_clean s : starts_clean s → starts_clean (rstrip s).
Proof.
  destruct s as [|c rest]; simpl; [exact id|]. intros Hc.
  destruct (rstrip rest); [rewrite Hc|]; exact Hc.
Qed.

Lemma rstrip_idemp s : rstrip (rstrip s) = rstrip s.
Proof.
  induction s as [|c rest IH]; simpl; [reflexivity|].
  destruct (rstrip rest) as [|d tail] eqn:Hrest.
  - destruct (is_space c) eqn:Hc; simpl; [reflexivity|]. rewrite Hc. reflexivity.
  - simpl. simpl in IH. rewrite IH. reflexivity.
Qed.

Lemma strip_idemp s : strip (strip s) = strip s.
Proof.
  unfold strip.
  rewrite (lstrip_clean_id (rstrip (lstrip s))).
  - apply rstrip_idemp.
  - apply rstrip_starts_clean, lstrip_starts_clean.
Qed.

Lemma lstrip_chars s x :
  In x (list_ascii_of_string (lstrip s)) → In x (list_ascii_of_string s).
Proof.
  induction s as [|c rest IH]; simpl; [exact id|].
  destruct (is_space c); [right; apply IH; assumption|exact id].
Qed.

Lemma rstrip_chars s x :
  In x (list_ascii_of_string (rstrip s)) → In x (list_ascii_of_string s).
Proof.
  induction s as [|c rest IH]; simpl; [exact id|].
  destruct (rstrip rest) as [|d tail].
  - destruct (is_space c); simpl; [contradiction|]. intros [H|[]]. left. exact H.
  - intros [H|H]; [left; exact H|right; apply IH, H].
Qed.

Lemma strip_chars s x :
  In x (list_ascii_of_string (strip s)) → In x (list_ascii_of_string s).
Proof. intros H. apply lstrip_chars, rstrip_chars, H. Qed.

Lemma split_pieces_without_separator sep s piece :
  piece ∈ split sep s → ¬ In sep (list_ascii_of_string piece).
Proof.
  revert piece. induction s as [|c rest IH]; intros piece; simpl.
  - intros H. apply list_elem_of_singleton in H as ->. exact id.
  - destruct (Ascii.eqb_spec c sep) as [->|Hne].
    + intros H. apply elem_of_cons in H as [->|H]; [exact id|apply IH, H].
    + destruct (split sep rest) as [|p ps].
      * intros H. apply list_elem_of_singleton in H as ->. simpl. intros [?|[]].
        contradiction.
      * intros H. apply elem_of_cons in H as [->|H].
        -- simpl. intros [?|Hin]; [contradiction|].
           apply (IH p); [apply list_elem_of_here|exact Hin].
        -- apply IH, list_elem_of_further, H.
Qed.

(** X12. Every tag the loader derives from a tags cell is non-empty, has
    no white space at either end (stripping it again changes nothing) and
    contains no comma. *)
Theorem parse_tags_clean c t :
  t ∈ parse_tags c →
  t ≠ EmptyString ∧ strip t = t ∧ ¬ In ","%char (list_ascii_of_string t).
Proof.
  unfold parse_tags. intros Hin.
  apply list_elem_of_In, List.filter_In in Hin as [Hin Hne].
  apply List.in_map_iff in Hin as (piece & <- & Hpiece).
  apply list_elem_of_In in Hpiece. split; [|split].
  - intros Hempty. rewrite Hempty in Hne. discriminate.
  - apply strip_idemp.
  - intros Hcomma. apply strip_chars in Hcomma.
    exact (split_pieces_without_separator _ _ _ Hpiece Hcomma).
Qed.

(** *** The reindexed frame *)

Lemma reindex_columns_wf df target fill df' :
  wf df → NoDup target →
  reindex_columns df target fill = inr df' → wf df'.
Proof.
  intros Hwf Htarget Hre.
  destruct (reindex_columns_labels _ _ _ _ Hre) as [Hcols Hidx].
  destruct (reindex_columns_rows _ _ _ _ Hwf Hre) as [Hlen Hrows].
  destruct Hwf as (Hni & _ & _ & _).
  repeat split.
  - rewrite Hidx. exact Hni.
  - rewrite Hcols. exact Htarget.
  - exact Hlen.
  - rewrite Hcols. exact Hrows.
Qed.

Section Loader.
Variable read_items : string → result RawItems.
Variable read_interactions : string → result DataFrame.

Local Abbreviation load_reco_datasets :=
  (load_reco_datasets read_items read_interactions).

(** X13. When the interactions file is a well-formed frame and the
    catalog's item ids are unique, the interaction matrix a successful
    load returns is well-formed too: rectangular, one cell per user and
    catalog item, with unique row and column labels. *)
Theorem load_reco_datasets_well_formed base_dir items interactions loaded :
  load_reco_datasets base_dir = inr (items, interactions) →
  read_interactions (base_dir +:+ "/interactions.csv") = inr loaded →
  wf loaded →
  NoDup (item_id items) →
  wf interactions.
Proof.
  intros Hload Hread Hwf Hids.
  destruct (load_reco_datasets_ok _ _ _ _ _ Hload)
    as (raw & loaded' & _ & _ & Hread' & Hre).
  rewrite Hread in Hread'. injection Hread' as <-.
  exact (reindex_columns_wf _ _ _ _ Hwf Hids Hre).
Qed.

(** X14. Without an [item_id] column in the items file the load never
    succeeds: once the items file is read, it raises the error of reading
    the interactions file if that fails, and otherwise the ValueError
    "items.csv must include item_id column". *)
Theorem load_reco_datasets_requires_item_id base_dir raw :
  read_items (base_dir +:+ "/items.csv") = inr raw →
  raw_item_id raw = None →
  load_reco_datasets base_dir
  = match read_interactions (base_dir +:+ "/interactions.csv") with
    | inl e => inl e
    | inr _ => inl (ValueError "items.csv must include item_id column")
    end.
Proof.
  intros Hitems Hnone.
  unfold load_reco_datasets, Preprocessing.load_reco_datasets, rbind.
  rewrite Hitems, Hnone.
  destruct (read_interactions _); reflexivity.
Qed.

End Loader.

End LoaderMoreFacts.

(** ** More about the feedback and metrics endpoints                        *)

Module ApiMoreFacts.
Import Py RecoApi FeedbackFacts.
Local Open Scope Q_scope.

Section Blueprint.
Context {FS : Type} (os : Platform FS).
Context {Engine : Type}.
Variable RecommendationEngine : string → M FS Engine.
Variable engine_feedback : json → json → Q → M (Engine * FS) unit.
Variable evaluate_at_k : Z → string → M (Engine * FS) (list (string * json)).
Variable float_of_string : string → option Q.
Variable int_of_string : string → option Z.
Variable dumps : json → string.
Variable service_root : string.

Local Abbreviation world := (@world FS Engine).
Local Abbreviation get_engine := (get_engine os RecommendationEngine service_root).
Local Abbreviation feedback :=
  (feedback os RecommendationEngine engine_feedback float_of_string
            dumps service_root).
Local Abbreviation request_rating := (request_rating float_of_string).
Local Abbreviation metrics :=
  (metrics os RecommendationEngine evaluate_at_k int_of_string service_root).
Local Abbreviation arg_k := (arg_k int_of_string).

(** X15. The engine is built at most once: after a [get_engine] that
    returned, [_ENGINE] holds the engine and the next [get_engine] returns
    it without touching anything; after one that raised, [_ENGINE] is
    still empty, so the next call tries the constructor again. *)
Theorem get_engine_builds_once (w : world) :
  match get_engine w with
  | (inr eng, w1) => _ENGINE w1 = Some eng ∧ get_engine w1 = (inr eng, w1)
  | (inl _, w1) => _ENGINE w = None ∧ _ENGINE w1 = None
  end.
Proof.
  unfold get_engine, RecoApi.get_engine.
  destruct (_ENGINE w) as [eng|] eqn:Hw.
  - rewrite Hw. auto.
  - destruct (RecommendationEngine _ (fs w)) as [[e|eng] fs']; simpl; auto.
Qed.

(** X16. A valid feedback request (both ids present, rating above 0) is
    handed to the engine before anything is logged: whatever the log
    append then does, [_ENGINE] holds the engine as [eng.feedback] left
    it; the answer is 200 when the append returns and the 500 of the
    generic handler when it raises. *)
Theorem feedback_reaches_engine_before_log parsed ts (w : world)
        user_id item_id rating context eng eng' fs1 fs2 :
  let data := request_data parsed in
  let temp := path_join os service_root "temp" in
  let line := dumps (JObject [("ts", JString ts); ("user_id", user_id);
                              ("item_id", item_id); ("rating", JNumber rating);
                              ("context", context)]) +:+ newline in
  get_method data "user_id" JNull = inr user_id → truthy user_id = true →
  get_method data "item_id" JNull = inr item_id → truthy item_id = true →
  request_rating data = inr rating → 0 < rating →
  get_method data "context" JNull = inr context →
  _ENGINE w = Some eng →
  engine_feedback user_id item_id rating (eng, fs w) = (inr tt, (eng', fs1)) →
  makedirs os temp fs1 = (inr tt, fs2) →
  feedback (inr parsed) ts w
  = (match fst (append_text os (path_join os temp "reco_feedback.jsonl") line fs2) with
     | inr _ => mkResponse (JObject [("status", JString "success");
                                     ("message", JString "feedback recorded")]) 200
     | inl e => error_response (str_exn e) 500
     end,
     mkWorld (Some eng') (_LAST_EVAL w) (_LAST_EVAL_RESULT w)
             (snd (append_text os (path_join os temp "reco_feedback.jsonl") line fs2))).
Proof.
  intros data temp line Hu Htu Hi Hti Hr Hpos Hctx Heng Hfb Hmk.
  unfold feedback, RecoApi.feedback, handle, feedback_try, bind, lift.
  fold data. fold (request_rating data).
  assert (Qle_bool rating 0 = false) as Hle.
  { apply not_true_iff_false. rewrite Qle_bool_iff. apply Qlt_not_le, Hpos. }
  rewrite Hu, Hi, Hr, Htu, Hti, Hle. cbn [negb orb].
  unfold RecoApi.get_engine. rewrite Heng.
  unfold on_engine. rewrite Hfb. unfold on_fs. simpl.
  fold temp. rewrite Hmk. simpl. rewrite Hctx. fold line.
  destruct (append_text os (path_join os temp "reco_feedback.jsonl") line fs2)
    as [[e|[]] fs3]; reflexivity.
Qed.

(** X17. A metrics call that finds the cache stale (empty, or older than
    60 seconds) evaluates with its own [k] and strategy.  If the
    evaluation returns, its result and the call's clock reading replace
    the cache and the answer carries that result; if it raises, the answer
    is a 500 and the cache keeps what it held. *)
Theorem metrics_refreshes_stale_cache args now (w : world) k eng :
  arg_k args = inr k →
  cache_stale w now = true →
  _ENGINE w = Some eng →
  metrics args now w
  = match evaluate_at_k k (arg_strategy args) (eng, fs w) with
    | (inr res, (eng', fs')) =>
        (metrics_response (metrics_data k (arg_strategy args) res),
         mkWorld (Some eng') (Some now) (Some res) fs')
    | (inl e, (eng', fs')) =>
        (error_response (str_exn e) 500,
         mkWorld (Some eng') (_LAST_EVAL w) (_LAST_EVAL_RESULT w) fs')
    end.
Proof.
  intros Hk Hstale Heng.
  unfold metrics, RecoApi.metrics, handle, metrics_try, bind, lift, get, ret.
  rewrite Hk, Hstale. unfold RecoApi.get_engine, on_engine. rewrite Heng.
  destruct (evaluate_at_k k (arg_strategy args) (eng, fs w))
    as [[e|res] [eng' fs']]; reflexivity.
Qed.

(** X18. A metrics call whose [k] does not convert with [int()] is
    answered with a 500 and changes nothing, also when a fresh cached
    result is there to be served. *)
Theorem metrics_rejects_unreadable_k args now (w : world) e :
  arg_k args = inl e →
  metrics args now w = (error_response (str_exn e) 500, w).
Proof.
  intros Hk.
  unfold metrics, RecoApi.metrics, handle, metrics_try, bind, lift.
  rewrite Hk. reflexivity.
Qed.

End Blueprint.

End ApiMoreFacts.

(** ** Facts about the recommend routes                                     *)

Module RoutesFacts.
Import Py RecoApi RecoRoutes.
Local Open Scope Q_scope.

(** What [_map] makes of a dict. *)
Lemma _map_dict fields :
  _map (JObject fields)
  = inr (JObject [("id", default JNull (lookup_key fields "item_id"));
                  ("title", default JNull (lookup_key fields "title"));
                  ("type", default (JString "Item") (lookup_key fields "category"));
                  ("tags", default (JArray []) (lookup_key fields "tags"));
                  ("score", default (JNumber 0.0) (lookup_key fields "score"))]).
Proof. reflexivity. Qed.

(** X19. When every item the engine returned is a dict, the simplified
    listing has one entry per item, in the engine's order, each with the
    keys id, title, type, tags and score: id and title are the item's
    item_id and title (null when absent), type is its category or "Item",
    tags its tags or the empty list, score its score or 0.0. *)
Theorem map_items_one_entry_per_item items :
  Forall (fun it => ∃ fields, it = JObject fields) items →
  ∃ mapped,
    map_items items = inr mapped ∧
    Forall2 (fun it out =>
               ∃ fields,
                 it = JObject fields ∧
                 out = JObject
                         [("id", default JNull (lookup_key fields "item_id"));
                          ("title", default JNull (lookup_key fields "title"));
                          ("type", default (JString "Item")
                                           (lookup_key fields "category"));
                          ("tags", default (JArray []) (lookup_key fields "tags"));
                          ("score", default (JNumber 0.0)
                                            (lookup_key fields "score"))])
            items mapped.
Proof.
  induction 1 as [|it rest [fields ->] _ (mapped & Hmapped & Hall)].
  - exists []. split; [reflexivity|constructor].
  - eexists. split.
    + cbn [map_items]. rewrite _map_dict, Hmapped. reflexivity.
    + constructor; [eauto|exact Hall].
Qed.

Section Routes.
Context {FS : Type} (os : Platform FS).
Context {Engine : Type}.
Variable RecommendationEngine : string → M FS Engine.
Variable engine_info : M (Engine * FS) json.
Variable engine_recommend :
  json → Z → string → Q → json → M (Engine * FS) (list json).
Variable float_of_string : string → option Q.
Variable int_of_string : string → option Z.
Variable service_root : string.

Local Abbreviation world := (@RecoApi.world FS Engine).
Local Abbreviation recommend :=
  (recommend os RecommendationEngine engine_recommend float_of_string
             int_of_string service_root).
Local Abbreviation recommend_querystring :=
  (recommend_querystring os RecommendationEngine engine_recommend
                         float_of_string int_of_string service_root).

(** X20. Both recommend routes check the user id before they convert any
    other parameter: a request without one is answered 400 "user_id is
    required" and changes nothing, whatever its top_n, alpha or strategy
    look like. *)
Theorem recommend_routes_require_user_id parsed args (w : world) :
  ((∃ v, get_method (request_data parsed) "user_id" JNull = inr v ∧
         truthy v = false) →
   recommend (inr parsed) w = (error_response "user_id is required" 400, w)) ∧
  (args_get args "user_id" = None ∨ args_get args "user_id" = Some EmptyString →
   recommend_querystring args w = (plain_error "user_id is required" 400, w)).
Proof.
  split.
  - intros (v & Hv & Hfalse).
    unfold recommend, RecoRoutes.recommend, handle_not_found, recommend_try,
      bind, lift.
    rewrite Hv, Hfalse. reflexivity.
  - intros Hmissing.
    unfold recommend_querystring, RecoRoutes.recommend_querystring,
      handle_not_found, recommend_querystring_try.
    destruct Hmissing as [-> | ->]; reflexivity.
Qed.

(** X21. A [KeyError] raised while the engine is being built is reported
    by the GET route as 404 "User not found", although no user was looked
    up; any other exception of the constructor is a 500.  In both cases
    [_ENGINE] stays empty. *)
Theorem recommend_querystring_constructor_failure args (w : world)
        c s top_n alpha e fs' :
  args_get args "user_id" = Some (String c s) →
  arg_int int_of_string args "top_n" 5 = inr top_n →
  arg_float float_of_string args "alpha" 0.5 = inr alpha →
  _ENGINE w = None →
  RecommendationEngine (DATA_DIR os service_root) (fs w) = (inl e, fs') →
  recommend_querystring args w
  = (match e with
     | KeyError k => plain_error ("User not found: " +:+ str_exn (KeyError k)) 404
     | _ => plain_error (str_exn e) 500
     end,
     mkWorld None (_LAST_EVAL w) (_LAST_EVAL_RESULT w) fs').
Proof.
  intros Huser Htop Halpha Hnone Hctor.
  unfold recommend_querystring, RecoRoutes.recommend_querystring,
    handle_not_found, recommend_querystring_try.
  rewrite Huser. unfold bind, lift. rewrite Htop, Halpha.
  unfold get_engine. rewrite Hnone, Hctor.
  destruct e; reflexivity.
Qed.

End Routes.

End RoutesFacts.

(** ** Facts about the application of main.py                               *)

Module MainAppFacts.
Import Py Frame MainApp FrameFacts FeedbackFacts RecordFacts.
Local Open Scope Q_scope.

Lemma clamp_alpha_range alpha : 0 <= clamp_alpha alpha <= 1.
Proof.
  unfold clamp_alpha, py_max, py_min.
  destruct (Qltb alpha 1.0) eqn:H1;
    [apply Qltb_true in H1|apply Qltb_false in H1].
  - destruct (Qgtb alpha 0.0) eqn:H0;
      [apply Qgtb_true in H0|apply Qgtb_false in H0]; lra.
  - destruct (Qgtb 1.0 0.0) eqn:H0;
      [apply Qgtb_true in H0|apply Qgtb_false in H0]; lra.
Qed.

Lemma clamp_alpha_inside alpha : 0 <= alpha <= 1 → clamp_alpha alpha == alpha.
Proof.
  intros Ha. unfold clamp_alpha, py_max, py_min.
  destruct (Qltb alpha 1.0) eqn:H1;
    [apply Qltb_true in H1|apply Qltb_false in H1].
  - destruct (Qgtb alpha 0.0) eqn:H0;
      [apply Qgtb_true in H0|apply Qgtb_false in H0]; lra.
  - destruct (Qgtb 1.0 0.0) eqn:H0;
      [apply Qgtb_true in H0|apply Qgtb_false in H0]; lra.
Qed.

Section App.
Context {FS : Type} (os : Platform FS).
Variable dumps : Feedback.log_entry → string.
Context {Model : Type}.
Variable set_alpha : Q → Model → Model.
Variable load_data : Preprocessing.Items → DataFrame → M Model unit.
Variable train : M Model unit.
Variable model_recommend : string → Z → M Model (list RecoApi.json).

Local Abbreviation bundle := (@bundle FS Model).
Local Abbreviation recommend := (recommend set_alpha model_recommend).
Local Abbreviation feedback := (feedback os dumps load_data train).

(** X22. The [/recommend] route hands the model an alpha between 0 and 1,
    equal to the requested one when that lies between them.  The model
    keeps that alpha also when its
    [recommend] raises, and the route touches neither the frames nor the
    files. *)
Theorem recommend_route_clamps_alpha user_id top_n alpha (b : bundle) :
  ∃ a,
    0 <= a <= 1 ∧
    (0 <= alpha <= 1 → a == alpha) ∧
    model (snd (recommend user_id top_n alpha b))
    = snd (model_recommend user_id top_n (set_alpha a (model b))) ∧
    interactions_df (snd (recommend user_id top_n alpha b)) = interactions_df b ∧
    items_df (snd (recommend user_id top_n alpha b)) = items_df b ∧
    fs (snd (recommend user_id top_n alpha b)) = fs b.
Proof.
  exists (clamp_alpha alpha).
  split; [apply clamp_alpha_range|]. split; [apply clamp_alpha_inside|].
  unfold recommend, MainApp.recommend, answer_400, bind, on_model, lift, ret.
  simpl.
  destruct (model_recommend user_id top_n (set_alpha (clamp_alpha alpha) (model b)))
    as [[e|recs] m']; simpl; [auto|].
  destruct (shape_recommendations recs); simpl; auto.
Qed.

(** X23. The [/feedback] route and the matrix it shares with [record]:
    after the call the frame of the bundle holds the clipped sum for the
    pair.  If the log append raised, the answer is the 400 error and the
    model is exactly the one before the call: it was neither reloaded nor
    retrained, although the matrix has changed.  If the append returned,
    the model was reloaded from the updated frame and, that succeeding,
    trained. *)
Theorem feedback_route_updates_shared_frame fb user_id item_id action (b : bundle) :
  wf (interactions_df b) →
  let delta := Feedback.default_weight action in
  let line := dumps (Feedback.mkEntry user_id item_id action delta) +:+ newline in
  let appended := append_text os (Feedback.log_path fb) line (fs b) in
  let b' := snd (feedback fb user_id item_id action b) in
  at_ (interactions_df b') user_id item_id
  = inr (Feedback.clip (Feedback.stored (interactions_df b) user_id item_id + delta)) ∧
  (∀ e, fst appended = inl e →
        fst (feedback fb user_id item_id action b)
        = RecoApi.mkResponse
            (RecoApi.JObject [("status", RecoApi.JString "error");
                              ("error", RecoApi.JString (str_exn e))]) 400 ∧
        model b' = model b) ∧
  (fst appended = inr tt →
   model b'
   = snd ((run load_data (items_df b) (interactions_df b') in train) (model b))).
Proof.
  intros Hwf delta line appended b'. subst b'.
  destruct (record_run os dumps fb user_id item_id action None
              (Feedback.mkWorld (interactions_df b) (fs b)) Hwf)
    as (df' & Hset & Hrun).
  cbv zeta in Hrun. simpl Feedback.interactions_df in *. simpl Feedback.fs in *.
  fold delta in Hset, Hrun. fold line in Hrun. fold appended in Hrun.
  unfold feedback, MainApp.feedback, answer_400, bind, on_frame, on_model, get, ret.
  rewrite Hrun. simpl.
  pose proof (set_at_read _ _ _ _ _ Hset) as Hcell.
  destruct (fst appended) as [e|[]] eqn:Happ; simpl.
  - split; [exact Hcell|]. split; [|discriminate].
    intros e' [= <-]. auto.
  - destruct (load_data (items_df b) df' (model b)) as [[e|[]] m1] eqn:Hload; simpl.
    + split; [exact Hcell|]. split; [discriminate|].
      intros _. unfold bind. rewrite Hload. reflexivity.
    + destruct (train m1) as [[e|[]] m2] eqn:Htrain; simpl;
        (split; [exact Hcell|]; split; [discriminate|];
         intros _; unfold bind; rewrite Hload, Htrain; reflexivity).
Qed.

End App.

End MainAppFacts.

(** ** Dicts, held-out items and blank tag cells                            *)

Module MiscFacts.
Import Py Frame Evaluation Preprocessing RecoApi FeedbackFacts LoaderMoreFacts.
Local Open Scope Q_scope.

Lemma lookup_dict_set d key v key' :
  lookup_key (dict_set d key v) key'
  = if String.eqb key' key then Some v else lookup_key d key'.
Proof.
  induction d as [|[k x] rest IH]; simpl.
  - destruct (String.eqb key' key); reflexivity.
  - destruct (String.eqb_spec key k) as [->|Hne]; simpl.
    + destruct (String.eqb key' k); reflexivity.
    + rewrite IH. destruct (String.eqb_spec key' k) as [->|_]; [|reflexivity].
      destruct (String.eqb_spec k key) as [->|_]; [contradiction|reflexivity].
Qed.

Lemma lookup_key_absent (d : list (string * json)) key :
  key ∉ map fst d → lookup_key d key = None.
Proof.
  induction d as [|[k x] rest IH]; simpl; [reflexivity|].
  intros Hnin. apply not_elem_of_cons in Hnin as [Hne Hnin].
  destruct (String.eqb_spec key k) as [->|_]; [contradiction|]. apply IH, Hnin.
Qed.

Lemma lookup_dict_merge base extra key :
  NoDup (map fst extra) →
  lookup_key (dict_merge base extra) key
  = match lookup_key extra key with
    | Some v => Some v
    | None => lookup_key base key
    end.
Proof.
  unfold dict_merge. revert base.
  induction extra as [|[k x] rest IH]; intros base Hnd; simpl; [reflexivity|].
  apply NoDup_cons in Hnd as [Hk Hnd].
  rewrite (IH _ Hnd), lookup_dict_set.
  destruct (String.eqb_spec key k) as [->|_]; [|reflexivity].
  rewrite (lookup_key_absent rest k Hk). reflexivity.
Qed.

(** X24. In the data of a metrics answer the fields of the cached result
    win: a key of the result is answered with the result's value, also
    when the key is "k" or "strategy"; only keys the result lacks show the
    request's own [k] and strategy. *)
Theorem metrics_data_result_fields_win k strategy res key :
  NoDup (map fst res) →
  lookup_key (metrics_data k strategy res) key
  = match lookup_key res key with
    | Some v => Some v
    | None =>
        if String.eqb key "k" then Some (JNumber (inject_Z k))
        else if String.eqb key "strategy" then Some (JString strategy)
        else None
    end.
Proof.
  intros Hnd. unfold metrics_data. rewrite (lookup_dict_merge _ _ _ Hnd).
  reflexivity.
Qed.

(** X25. The item held out for a user is the first column, in column
    order, whose cell is strictly positive: every cell before it is 0 or
    negative, and its own is above 0. *)
Theorem held_out_item_is_first_positive cols row t rest :
  positive_labels cols row = t :: rest →
  ∃ j v,
    cols !! j = Some t ∧ row !! j = Some v ∧ 0 < v ∧
    ∀ j' v', (j' < j)%nat → row !! j' = Some v' → v' <= 0.
Proof.
  revert row. induction cols as [|c cols' IH]; intros [|x row']; simpl;
    try discriminate.
  destruct (Qgtb x 0) eqn:Hx.
  - intros [= -> _]. exists 0%nat, x. apply Qgtb_true in Hx.
    repeat split; auto. intros j' v' Hlt. lia.
  - intros Hpos. destruct (IH row' Hpos) as (j & v & Hc & Hr & Hv & Hbefore).
    exists (S j), v. repeat split; auto.
    intros [|j'] v' Hlt; simpl.
    + intros [= <-]. apply Qgtb_false, Hx.
    + apply Hbefore. lia.
Qed.

Lemma lstrip_blank s :
  (∀ x, In x (list_ascii_of_string s) → is_space x = true) →
  lstrip s = EmptyString.
Proof.
  induction s as [|c rest IH]; intros Hall; simpl; [reflexivity|].
  rewrite (Hall c) by (left; reflexivity).
  apply IH. intros x Hx. apply Hall. right. exact Hx.
Qed.

Lemma split_pieces_chars sep s piece x :
  piece ∈ split sep s → In x (list_ascii_of_string piece) →
  In x (list_ascii_of_string s).
Proof.
  revert piece. induction s as [|c rest IH]; intros piece; simpl.
  - intros H. apply list_elem_of_singleton in H as ->. exact id.
  - destruct (Ascii.eqb c sep).
    + intros H. apply elem_of_cons in H as [->|H]; [intros []|].
      intros Hx. right. exact (IH _ H Hx).
    + destruct (split sep rest) as [|p ps].
      * intros H. apply list_elem_of_singleton in H as ->. simpl.
        intros [?|[]]. left. assumption.
      * intros H. apply elem_of_cons in H as [->|H].
        -- simpl. intros [?|Hx]; [left; assumption|right].
           exact (IH p (list_elem_of_here _ _) Hx).
        -- intros Hx. right. exact (IH _ (list_elem_of_further _ _ _ H) Hx).
Qed.

(** X26. A tags cell that is missing, empty, or made of white space and
    commas only gives an item no tags at all. *)
Theorem parse_tags_blank_cell c :
  (∀ s x, c = Some s → In x (list_ascii_of_string s) →
          is_space x = true ∨ x = ","%char) →
  parse_tags c = [].
Proof.
  intros Hblank. unfold parse_tags.
  set (s := default EmptyString c).
  assert (∀ x, In x (list_ascii_of_string s) → is_space x = true ∨ x = ","%char)
    as Hs.
  { subst s. destruct c as [s|]; simpl; [|intros x []].
    intros x Hx. exact (Hblank s x eq_refl Hx). }
  assert (∀ piece, piece ∈ split "," s → strip piece = EmptyString) as Hpieces.
  { intros piece Hpiece. unfold strip. rewrite lstrip_blank; [reflexivity|].
    intros x Hx. destruct (Hs x (split_pieces_chars _ _ _ _ Hpiece Hx)) as [?| ->];
      [assumption|].
    destruct (split_pieces_without_separator _ _ _ Hpiece Hx). }
  induction (split "," s) as [|piece pieces IH]; [reflexivity|].
  simpl. rewrite (Hpieces piece) by apply list_elem_of_here. simpl.
  apply IH. intros p Hp. apply Hpieces, list_elem_of_further, Hp.
Qed.

End MiscFacts.

(** ** The cache of the metrics endpoint                                   *)

Module MetricsCacheFacts.
Import Py RecoApi FeedbackFacts ApiFacts MiscFacts.
Local Open Scope Q_scope.

Section Blueprint.
Context {FS : Type} (os : Platform FS).
Context {Engine : Type}.
Variable RecommendationEngine : string → M FS Engine.
Variable evaluate_at_k : Z → string → M (Engine * FS) (list (string * json)).
Variable int_of_string : string → option Z.
Variable service_root : string.

Local Abbreviation world := (@world FS Engine).
Local Abbreviation metrics :=
  (metrics os RecommendationEngine evaluate_at_k int_of_string
           service_root).
Local Abbreviation arg_k := (arg_k int_of_string).
Local Abbreviation get_engine :=
  (get_engine os RecommendationEngine service_root).

(** C9. Let a call of the metrics endpoint answer with status 200, and
    let a second call come while the cache has not expired: at most 60
    seconds after the evaluation the cache holds, which is the first call
    itself if that one evaluated. The cache then holds one result [res];
    if the first call found the cache stale, [res] is what [evaluate_at_k]
    returned for the first call's [k] and strategy. The second call
    evaluates nothing, leaves everything as it was, and answers with
    status 200 and data in which every field of [res] has the value [res]
    gives it, as in the first answer, whatever [k] and strategy the second
    call asks for; these two show only under the keys "k" and "strategy",
    and only if [res] has no field of that name. *)
Theorem metrics_cache_keyed_by_time_only
    args1 args2 now1 now2 (w w1 : world) resp1 k2 :
  metrics args1 now1 w = (resp1, w1) →
  status_code resp1 = 200%Z →
  arg_k args2 = inr k2 →
  (∀ last, _LAST_EVAL w1 = Some last → now2 - last <= 60) →
  ∃ k1 res data1 data2,
    arg_k args1 = inr k1 ∧
    _LAST_EVAL_RESULT w1 = Some res ∧
    (cache_stale w now1 = true →
     _LAST_EVAL w1 = Some now1 ∧
     ∃ eng w0,
       get_engine w = (inr eng, w0) ∧
       fst (evaluate_at_k k1 (arg_strategy args1) (eng, fs w0)) = inr res) ∧
    (cache_stale w now1 = false → _LAST_EVAL_RESULT w = Some res ∧ w1 = w) ∧
    resp1
    = mkResponse (JObject [("status", JString "success");
                           ("data", JObject data1)]) 200 ∧
    metrics args2 now2 w1
    = (mkResponse (JObject [("status", JString "success");
                            ("data", JObject data2)]) 200, w1) ∧
    (NoDup (map fst res) →
     ∀ key,
       lookup_key data1 key
       = match lookup_key res key with
         | Some v => Some v
         | None =>
             if String.eqb key "k" then Some (JNumber (inject_Z k1))
             else if String.eqb key "strategy"
                  then Some (JString (arg_strategy args1))
                  else None
         end ∧
       lookup_key data2 key
       = match lookup_key res key with
         | Some v => Some v
         | None =>
             if String.eqb key "k" then Some (JNumber (inject_Z k2))
             else if String.eqb key "strategy"
                  then Some (JString (arg_strategy args2))
                  else None
         end).
Proof.
  intros Hfirst Hok Hk2 Hwindow.
  destruct (metrics_success _ _ _ _ _ _ _ _ _ _ Hfirst Hok)
    as (k1 & res & last & Hk1 & Hres & Hlast & Hresp & Hstale & Hfresh).
  exists k1, res, (metrics_data k1 (arg_strategy args1) res),
         (metrics_data k2 (arg_strategy args2) res).
  split; [exact Hk1|]. split; [exact Hres|]. split.
  { intros Hs. destruct (Hstale Hs) as [-> Hsource]. split; assumption. }
  split; [exact Hfresh|]. split; [exact Hresp|]. split.
  - apply metrics_from_cache; [exact Hk2| |exact Hres].
    apply (cache_fresh_when_within_window w1 now2 last res Hres Hlast).
    apply Hwindow, Hlast.
  - intros Hnd key. unfold metrics_data.
    rewrite !(lookup_dict_merge _ _ _ Hnd). split; reflexivity.
Qed.

End Blueprint.

End MetricsCacheFacts.

(** ** Worked examples for the further properties                           *)

Module MoreExamples.
Import Py Frame Fixtures MoreFixtures.
Local Open Scope Q_scope.

Lemma idle_user_wf : wf idle_user.
Proof.
  repeat split; simpl.
  - refine (bool_decide_unpack _ _). vm_compute. exact I.
  - refine (bool_decide_unpack _ _). vm_compute. exact I.
  - repeat constructor.
Defined.

Lemma average_precision_within_unit_interval_witness :
  0 <= Evaluation.average_precision_at_k ["A"; "C"] ["B"; "A"; "C"] 2 <= 1.
Proof.
  apply RankingMetricsFacts.average_precision_within_unit_interval.
  refine (bool_decide_unpack _ _). vm_compute. exact I.
Defined.

Lemma average_precision_zero_without_hit_witness :
  Evaluation.average_precision_at_k ["A"] ["B"; "C"; "A"] 2 == 0.
Proof.
  apply RankingMetricsFacts.average_precision_zero_without_hit.
  intros p Hp Hactual.
  apply list_elem_of_singleton in Hactual as ->.
  vm_compute in Hp.
  apply elem_of_cons in Hp as [Hp|Hp]; [discriminate|].
  apply elem_of_cons in Hp as [Hp|Hp]; [discriminate|]. inversion Hp.
Defined.

Lemma ranking_metrics_use_top_k_only_witness :
  Evaluation.precision_recall_at_k ["A"] ["A"; "B"] 0
  = Evaluation.precision_recall_at_k ["A"] ["A"; "B"] 1.
Proof.
  refine (proj1 (proj2 (proj2 (RankingMetricsFacts.ranking_metrics_use_top_k_only
                                 ["A"] ["A"; "B"] 0)) _)).
  lia.
Defined.

Lemma evaluate_holdout_without_positive_rows_witness :
  Evaluation.evaluate_holdout_at_k flaky_recommend 5 idle_user
  = (inr (Evaluation.mkMetrics (0 # 1000000) (0 # 1000000) (0 # 1000000)
            (0 # 1000000)), idle_user).
Proof.
  apply HoldoutFacts.evaluate_holdout_without_positive_rows.
  intros u row Hin. vm_compute in Hin.
  apply list_elem_of_singleton in Hin. injection Hin as -> ->. reflexivity.
Defined.

Lemma evaluate_holdout_returns_when_recommender_does_witness :
  ∃ m, Evaluation.evaluate_holdout_at_k steady_recommend 5 two_users
       = (inr m, two_users).
Proof.
  apply HoldoutFacts.evaluate_holdout_returns_when_recommender_does.
  - exact Examples.two_users_wf.
  - intros df' u. eexists _, _. split; reflexivity.
Defined.

Lemma record_leaves_other_cells_witness :
  at_ (Feedback.interactions_df
         (snd (Feedback.record full_os show_entry manager "u1" "B" "like" None
                 fresh_world))) "u2" "B"
  = inr 2.
Proof.
  apply RecordMoreFacts.record_leaves_other_cells.
  - exact Examples.two_users_wf.
  - discriminate.
  - reflexivity.
Defined.

Lemma record_appends_new_labels_witness :
  index (Feedback.interactions_df
           (snd (Feedback.record mem_os show_entry manager "u3" "A" "like" None
                   fresh_world)))
  = ["u1"; "u2"; "u3"] ∧
  at_ (Feedback.interactions_df
         (snd (Feedback.record mem_os show_entry manager "u3" "A" "like" None
                 fresh_world))) "u3" "B"
  = inr 0.0.
Proof.
  pose proof (RecordMoreFacts.record_appends_new_labels
                mem_os show_entry manager "u3" "A" "like" None fresh_world
                Examples.two_users_wf) as (Hindex & _ & Hrow).
  split; [exact Hindex|].
  apply Hrow.
  - intros Hin. vm_compute in Hin.
    apply elem_of_cons in Hin as [Hin|Hin]; [discriminate|].
    apply elem_of_cons in Hin as [Hin|Hin]; [discriminate|]. inversion Hin.
  - apply list_elem_of_further, list_elem_of_here.
  - discriminate.
Defined.

(** Twelve likes from 1.0 end on 5.0, twelve dislikes on -5.0. *)
Lemma record_repeated_saturates_witness :
  Feedback.stored
    (Feedback.interactions_df
       (Feedback.record_times mem_os show_entry 12 manager "u1" "A" "like"
          fresh_world)) "u1" "A" == 5.0 ∧
  Feedback.stored
    (Feedback.interactions_df
       (Feedback.record_times mem_os show_entry 12 manager "u1" "A" "dislike"
          fresh_world)) "u1" "A" == -5.0.
Proof.
  refine (proj2 (proj2 (RecordMoreFacts.record_repeated_saturates
                          mem_os show_entry 12 manager "u1" "A" fresh_world
                          Examples.two_users_wf Examples.u1_A_in_bounds)) _).
  lia.
Defined.

Lemma parse_tags_clean_witness :
  "calm" ≠ EmptyString ∧ Preprocessing.strip "calm" = "calm" ∧
  ¬ In ","%char (list_ascii_of_string "calm").
Proof.
  apply (LoaderMoreFacts.parse_tags_clean (Some " outdoor ,, calm ") "calm").
  vm_compute. apply list_elem_of_further, list_elem_of_here.
Defined.

Lemma load_reco_datasets_well_formed_witness :
  wf (mkDF ["u1"; "u2"] ["A"; "C"] [[1; 0]; [0; 0]]).
Proof.
  refine (LoaderMoreFacts.load_reco_datasets_well_formed
            read_catalog read_two_users "data"
            (Preprocessing.mkItems ["A"; "C"]
               (Some [Some "Walk"; Some "Calm music"])
               [Some "Item"; Some "Item"] [["outdoor"; "calm"]; []])
            _ two_users _ _ Examples.two_users_wf _).
  - vm_compute. reflexivity.
  - reflexivity.
  - refine (bool_decide_unpack _ _). vm_compute. exact I.
Defined.

Lemma load_reco_datasets_requires_item_id_witness :
  Preprocessing.load_reco_datasets read_without_ids read_two_users "data"
  = inl (ValueError "items.csv must include item_id column").
Proof.
  exact (LoaderMoreFacts.load_reco_datasets_requires_item_id
           read_without_ids read_two_users "data" raw_without_ids
           eq_refl eq_refl).
Defined.

(** The log cannot be written: the client gets a 500, the engine has the
    rating. *)
Lemma feedback_reaches_engine_before_log_witness :
  RecoApi.feedback full_os new_toy_engine toy_feedback float_of_digits show_json
    "/srv" (inr body_five_stars) "2024-01-01T00:00:00" warm_api
  = (RecoApi.error_response "No space left on device" 500,
     RecoApi.mkWorld
       (Some [(RecoApi.JString "u1", RecoApi.JString "A", 5)]) None None []).
Proof.
  exact (ApiMoreFacts.feedback_reaches_engine_before_log
           full_os new_toy_engine toy_feedback float_of_digits show_json "/srv"
           body_five_stars "2024-01-01T00:00:00" warm_api
           (RecoApi.JString "u1") (RecoApi.JString "A") 5 RecoApi.JNull
           [] [(RecoApi.JString "u1", RecoApi.JString "A", 5)] [] []
           eq_refl eq_refl eq_refl eq_refl eq_refl eq_refl eq_refl eq_refl
           eq_refl eq_refl).
Defined.

(** A cached result from time 100 is replaced at time 200. *)
Lemma metrics_refreshes_stale_cache_witness :
  toy_metrics_endpoint [("k", "3")] 200
    (RecoApi.mkWorld (Some []) (Some 100)
       (Some [("evaluated_k", RecoApi.JNumber 5)]) [])
  = (RecoApi.metrics_response
       (RecoApi.metrics_data 3 "hybrid"
          [("evaluated_k", RecoApi.JNumber (inject_Z 3));
           ("evaluated_strategy", RecoApi.JString "hybrid")]),
     RecoApi.mkWorld (Some []) (Some 200)
       (Some [("evaluated_k", RecoApi.JNumber (inject_Z 3));
              ("evaluated_strategy", RecoApi.JString "hybrid")]) []).
Proof.
  exact (ApiMoreFacts.metrics_refreshes_stale_cache
           mem_os new_toy_engine toy_evaluate int_of_digits "/srv"
           [("k", "3")] 200
           (RecoApi.mkWorld (Some []) (Some 100)
              (Some [("evaluated_k", RecoApi.JNumber 5)]) [])
           3 [] eq_refl eq_refl eq_refl).
Defined.

Lemma metrics_rejects_unreadable_k_witness :
  toy_metrics_endpoint [("k", "five")] 130
    (snd (toy_metrics_endpoint [("k", "5")] 100 idle_api))
  = (RecoApi.error_response "invalid literal for int() with base 10: 'five'" 500,
     snd (toy_metrics_endpoint [("k", "5")] 100 idle_api)).
Proof.
  exact (ApiMoreFacts.metrics_rejects_unreadable_k
           mem_os new_toy_engine toy_evaluate int_of_digits "/srv"
           [("k", "five")] 130
           (snd (toy_metrics_endpoint [("k", "5")] 100 idle_api))
           (ValueError "invalid literal for int() with base 10: 'five'") eq_refl).
Defined.

Lemma map_items_one_entry_per_item_witness :
  ∃ mapped,
    RecoRoutes.map_items
      [RecoApi.JObject [("item_id", RecoApi.JString "B")]] = inr mapped ∧
    length mapped = 1%nat.
Proof.
  destruct (RoutesFacts.map_items_one_entry_per_item
              [RecoApi.JObject [("item_id", RecoApi.JString "B")]])
    as (mapped & Hmapped & Hall).
  - repeat constructor. eexists. reflexivity.
  - exists mapped. split; [exact Hmapped|].
    apply Forall2_length in Hall. symmetry. exact Hall.
Defined.

(** No user id and a top_n that is no number: still the 400. *)
Lemma recommend_routes_require_user_id_witness :
  RecoRoutes.recommend mem_os new_toy_engine toy_recommend float_of_digits
    int_of_digits "/srv" (inr body_anonymous) idle_api
  = (RecoApi.error_response "user_id is required" 400, idle_api).
Proof.
  refine (proj1 (RoutesFacts.recommend_routes_require_user_id
                   mem_os new_toy_engine toy_recommend float_of_digits
                   int_of_digits "/srv" body_anonymous [] idle_api) _).
  exists RecoApi.JNull. split; reflexivity.
Defined.

Lemma recommend_querystring_constructor_failure_witness :
  RecoRoutes.recommend_querystring mem_os broken_engine toy_recommend
    float_of_digits int_of_digits "/srv" [("user_id", "u1")] idle_api
  = (RecoRoutes.plain_error "User not found: 'item_id'" 404, idle_api).
Proof.
  exact (RoutesFacts.recommend_querystring_constructor_failure
           mem_os broken_engine toy_recommend float_of_digits int_of_digits
           "/srv" [("user_id", "u1")] idle_api "u" "1" 5 0.5
           (KeyError "item_id") [] eq_refl eq_refl eq_refl eq_refl eq_refl).
Defined.

(** An alpha of 3 reaches the model as an alpha of at most 1. *)
Lemma recommend_route_clamps_alpha_witness :
  ∃ a,
    0 <= a <= 1 ∧
    MainApp.model
      (snd (MainApp.recommend toy_set_alpha toy_model_recommend "u1" 5 3 toy_bundle))
    = snd (toy_model_recommend "u1" 5 (toy_set_alpha a (MainApp.model toy_bundle))).
Proof.
  destruct (MainAppFacts.recommend_route_clamps_alpha
              toy_set_alpha toy_model_recommend "u1" 5 3 toy_bundle)
    as (a & Hrange & _ & Hmodel & _).
  exists a. split; [exact Hrange|exact Hmodel].
Defined.

(** On a full volume the route answers 400 and the model is not retrained,
    while the frame of the bundle has the like. *)
Lemma feedback_route_updates_shared_frame_witness :
  at_ (MainApp.interactions_df
         (snd (MainApp.feedback full_os show_entry toy_load_data toy_train
                 manager "u2" "A" "like" toy_bundle))) "u2" "A"
  = inr (Feedback.clip (Feedback.stored two_users "u2" "A"
                        + Feedback.default_weight "like")) ∧
  MainApp.model
    (snd (MainApp.feedback full_os show_entry toy_load_data toy_train
            manager "u2" "A" "like" toy_bundle))
  = MainApp.model toy_bundle.
Proof.
  pose proof (MainAppFacts.feedback_route_updates_shared_frame
                full_os show_entry toy_load_data toy_train
                manager "u2" "A" "like" toy_bundle Examples.two_users_wf)
    as (Hcell & Hfail & _).
  split; [exact Hcell|].
  exact (proj2 (Hfail (OSError "No space left on device") eq_refl)).
Defined.

(** A cached result that has a field "k" hides the requested k. *)
Lemma metrics_data_result_fields_win_witness :
  RecoApi.lookup_key
    (RecoApi.metrics_data 10 "cf" [("k", RecoApi.JNumber 5)]) "k"
  = Some (RecoApi.JNumber 5).
Proof.
  apply (MiscFacts.metrics_data_result_fields_win
           10 "cf" [("k", RecoApi.JNumber 5)] "k").
  refine (bool_decide_unpack _ _). vm_compute. exact I.
Defined.

Lemma held_out_item_is_first_positive_witness :
  ∃ j v,
    ["A"; "B"; "C"] !! j = Some "B" ∧ [0; 3; 2] !! j = Some v ∧ 0 < v ∧
    ∀ j' v', (j' < j)%nat → [0; 3; 2] !! j' = Some v' → v' <= 0.
Proof.
  exact (MiscFacts.held_out_item_is_first_positive
           ["A"; "B"; "C"] [0; 3; 2] "B" ["C"] eq_refl).
Defined.

Lemma parse_tags_blank_cell_witness :
  Preprocessing.parse_tags (Some " , ,") = [].
Proof.
  apply MiscFacts.parse_tags_blank_cell.
  intros s x [= <-] Hx. simpl in Hx.
  destruct Hx as [<-|[<-|[<-|[<-|[]]]]]; auto.
Defined.

(** A first call with k = 5 at time 100 evaluates; a call with k = 10 and
    strategy CF at time 130 evaluates nothing and shows the fields
    evaluated for k = 5 and the hybrid strategy under its own k. *)
Lemma metrics_cache_keyed_by_time_only_witness :
  ∃ data2,
    toy_metrics_endpoint [("k", "10"); ("strategy", "CF")] 130
      (snd (toy_metrics_endpoint [("k", "5")] 100 idle_api))
    = (RecoApi.mkResponse
         (RecoApi.JObject [("status", RecoApi.JString "success");
                           ("data", RecoApi.JObject data2)]) 200,
       snd (toy_metrics_endpoint [("k", "5")] 100 idle_api)) ∧
    RecoApi.lookup_key data2 "evaluated_k" = Some (RecoApi.JNumber 5) ∧
    RecoApi.lookup_key data2 "evaluated_strategy"
    = Some (RecoApi.JString "hybrid") ∧
    RecoApi.lookup_key data2 "k" = Some (RecoApi.JNumber 10) ∧
    RecoApi.lookup_key data2 "strategy" = Some (RecoApi.JString "cf").
Proof.
  destruct (MetricsCacheFacts.metrics_cache_keyed_by_time_only
              mem_os new_toy_engine toy_evaluate int_of_digits "/srv"
              [("k", "5")] [("k", "10"); ("strategy", "CF")] 100 130 idle_api
              (snd (toy_metrics_endpoint [("k", "5")] 100 idle_api))
              (fst (toy_metrics_endpoint [("k", "5")] 100 idle_api))
              10%Z)
    as (k1 & res & data1 & data2 & Hk1 & Hres & _ & _ & _ & Hsecond & Hdata).
  - reflexivity.
  - reflexivity.
  - reflexivity.
  - intros last Hlast. vm_compute in Hlast. injection Hlast as <-.
    vm_compute. discriminate.
  - exists data2. split; [exact Hsecond|].
    injection Hk1 as <-. vm_compute in Hres. injection Hres as <-.
    assert (NoDup (map fst [("evaluated_k", RecoApi.JNumber 5);
                            ("evaluated_strategy", RecoApi.JString "hybrid")]))
      as Hnd by (refine (bool_decide_unpack _ _); vm_compute; exact I).
    repeat split.
    + exact (proj2 (Hdata Hnd "evaluated_k")).
    + exact (proj2 (Hdata Hnd "evaluated_strategy")).
    + exact (proj2 (Hdata Hnd "k")).
    + exact (proj2 (Hdata Hnd "strategy")).
Defined.

End MoreExamples.
